(** * go-asynctask: the task handle, its runner and its wait protocol

    A shallow embedding of [async_task.go].  The handle [TaskStatus] is a
    record with the fields of the Go struct; [finish], [Cancel], [Wait],
    [WaitWithTimeout], [Start], [NewCompletedTask] and [runAndTrackTask] are
    functions on it.  Go values that the code inspects are modelled as far as
    the code inspects them: an [error] is an interface value (nil, or a
    dynamic type with its [reflect.Kind], its data pointer, its message and
    what [Unwrap] returns), a panic is an explicit result of a computation.

    Every method call is one atomic step on the handle: the program has no
    lock around [finish], and two calls of [finish] that overlap in time are
    outside this model. *)

From Stdlib Require Import ZArith String List Bool Lia.
From Stdlib Require Import DecimalString.
Import ListNotations.
Open Scope string_scope.
Open Scope Z_scope.

(** ** States *)

(** [type State string]: any string is a [State]. *)
Definition State : Type := string.

Definition StateRunning : State := "Running".
Definition StateCompleted : State := "Completed".
Definition StateFailed : State := "Failed".
Definition StateCanceled : State := "Canceled".

(** [func (s State) IsTerminalState() bool { return s != StateRunning }] *)
Definition IsTerminalState (s : State) : bool :=
  negb (String.eqb s StateRunning).

(** ** Go values *)

(** [reflect.Kind], in the order of the Go declaration, and
    [func (k Kind) String() string]. *)
Module reflect.

Inductive Kind : Type :=
| Invalid | Bool | Int | Int8 | Int16 | Int32 | Int64
| Uint | Uint8 | Uint16 | Uint32 | Uint64 | Uintptr
| Float32 | Float64 | Complex64 | Complex128
| Array | Chan | Func | Interface | Map | Pointer | Slice
| String | Struct | UnsafePointer.

Definition Kind_String (k : Kind) : string :=
  match k with
  | Invalid => "invalid" | Bool => "bool" | Int => "int" | Int8 => "int8"
  | Int16 => "int16" | Int32 => "int32" | Int64 => "int64"
  | Uint => "uint" | Uint8 => "uint8" | Uint16 => "uint16"
  | Uint32 => "uint32" | Uint64 => "uint64" | Uintptr => "uintptr"
  | Float32 => "float32" | Float64 => "float64"
  | Complex64 => "complex64" | Complex128 => "complex128"
  | Array => "array" | Chan => "chan" | Func => "func"
  | Interface => "interface" | Map => "map" | Pointer => "ptr"
  | Slice => "slice" | String => "string" | Struct => "struct"
  | UnsafePointer => "unsafe.Pointer"
  end.

Scheme Equality for Kind.

End reflect.

(** A value of the interface type [error].

    [nil_error] is the nil interface.  [dyn_error ty k p msg inner] is a
    non-nil interface holding a value of the dynamic type named [ty], of kind
    [k]; [p] is its data pointer ([None] is the nil pointer, [Some a] the
    allocation at address [a]), [msg] is what [Error()] returns and [inner]
    what [Unwrap()] returns ([nil_error] when the type has no [Unwrap]). *)
Inductive error : Type :=
| nil_error : error
| dyn_error (ty : string) (k : reflect.Kind) (p : option positive)
            (msg : string) (inner : error) : error.

(** A value of the empty interface [interface{}]. *)
Inductive any : Type :=
| nil_any : any
| IntVal (n : Z) : any
| StrVal (s : string) : any
| ErrVal (e : error) : any.

Definition ptr_eqb (a b : option positive) : bool :=
  match a, b with
  | None, None => true
  | Some x, Some y => Pos.eqb x y
  | _, _ => false
  end.

(** [a == b] on two [error] interface values: same dynamic type and equal
    dynamic values. *)
Fixpoint error_eqb (a b : error) : bool :=
  match a, b with
  | nil_error, nil_error => true
  | dyn_error ta ka pa ma ia, dyn_error tb kb pb mb ib =>
      String.eqb ta tb && reflect.Kind_beq ka kb && ptr_eqb pa pb
      && String.eqb ma mb && error_eqb ia ib
  | _, _ => false
  end.

(** [err == nil] *)
Definition is_nil_error (e : error) : bool :=
  match e with nil_error => true | dyn_error _ _ _ _ _ => false end.

(** [r != nil] on an [interface{}] *)
Definition is_nil_any (v : any) : bool :=
  match v with nil_any => true | _ => false end.

(** [err.Error()] *)
Definition Error (e : error) : string :=
  match e with nil_error => "" | dyn_error _ _ _ msg _ => msg end.

(** [errors.Is(err, target)]: [err == target] somewhere along the chain of
    [err], [err.Unwrap()], ... (none of the types here has an [Is]
    method). *)
Fixpoint errors_Is (err target : error) : bool :=
  match err with
  | nil_error => is_nil_error target
  | dyn_error _ _ _ _ inner =>
      if is_nil_error target then false
      else if error_eqb err target then true
      else match inner with
           | nil_error => false
           | dyn_error _ _ _ _ _ => errors_Is inner target
           end
  end.


(** [errors.New(text)]: a pointer to a fresh [errorString]; [a] is the
    address of the allocation. *)
Definition errors_New (a : positive) (text : string) : error :=
  dyn_error "*errors.errorString" reflect.Pointer (Some a) text nil_error.

(** The three package-level sentinels: three allocations. *)
Definition ErrPanic : error := errors_New 1 "panic".
Definition ErrTimeout : error := errors_New 2 "timeout".
Definition ErrCanceled : error := errors_New 3 "canceled".

(** The verb [%v] of [fmt], on the values of [any]. *)
Definition fmt_v (v : any) : string :=
  match v with
  | nil_any => "<nil>"
  | IntVal n => NilZero.string_of_int (Z.to_int n)
  | StrVal s => s
  | ErrVal e => match e with nil_error => "<nil>" | _ => Error e end
  end.

(** ** Computations that may panic *)

(** The result of running Go code that may panic: it returns normally with a
    value, or it panics with the value that [recover()] will yield. *)
Inductive exec (A : Type) : Type :=
| Normal (a : A) : exec A
| Panic (v : any) : exec A.
Arguments Normal {A} a.
Arguments Panic {A} v.

Definition bind {A B : Type} (m : exec A) (f : A -> exec B) : exec B :=
  match m with
  | Normal a => f a
  | Panic v => Panic v
  end.

Declare Scope exec_scope.
Delimit Scope exec_scope with exec.
Notation "x <- m ;; k" := (bind m (fun x => k))
  (at level 61, m at next level, right associativity) : exec_scope.

(** ** reflect *)

(** What [reflect.ValueOf] keeps of a value: its kind and its data pointer. *)
Record Value : Type := mkValue { kind : reflect.Kind; ptr : option positive }.

(** [reflect.ValueOf(err)] *)
Definition reflect_ValueOf (e : error) : Value :=
  match e with
  | nil_error => mkValue reflect.Invalid None
  | dyn_error _ k p _ _ => mkValue k p
  end.

(** What the runtime supplies to the runner: the text of [debug.Stack()]
    and the addresses of the allocations it makes. *)
Record Runtime : Type := mkRuntime {
  debug_Stack : string;
  new_ValueError : positive;
  new_wrapError : positive
}.

(** [&reflect.ValueError{Method: m, Kind: k}], with the message of
    [func (e *ValueError) Error() string]: the kind [Invalid] (zero) is
    printed as a zero Value. *)
Definition ValueError (a : positive) (m : string) (k : reflect.Kind) : error :=
  dyn_error "*reflect.ValueError" reflect.Pointer (Some a)
    (match k with
     | reflect.Invalid => "reflect: call of " ++ m ++ " on zero Value"
     | _ =>
         "reflect: call of " ++ m ++ " on " ++ reflect.Kind_String k
           ++ " Value"
     end)
    nil_error.

(** [func (v Value) IsNil() bool]: defined on the kinds that have a nil
    value, a panic with a [*ValueError] on every other kind. *)
Definition IsNil (rt : Runtime) (v : Value) : exec bool :=
  match kind v with
  | reflect.Chan | reflect.Func | reflect.Map | reflect.Pointer
  | reflect.UnsafePointer | reflect.Interface | reflect.Slice =>
      Normal (match ptr v with None => true | Some _ => false end)
  | k => Panic (ErrVal (ValueError (new_ValueError rt) "reflect.Value.IsNil" k))
  end.

(** ** The handle *)

(** [type TaskStatus struct].  The cancel function and the wait group are
    references into the surrounding [World] (below); [None] is Go's nil. *)
Inductive CancelFunc : Type := cancel_ctx.
Inductive WaitGroupRef : Type := wg_ref.

Record TaskStatus : Type := mkTaskStatus {
  state : State;
  result : any;
  err : error;
  cancelFunc : option CancelFunc;
  waitGroup : option WaitGroupRef
}.

(** [func (t *TaskStatus) State() State] *)
Definition State_of (t : TaskStatus) : State := state t.

(** [func (t *TaskStatus) finish(state State, result interface{}, err error)] *)
Definition finish (t : TaskStatus) (s : State) (r : any) (e : error)
  : TaskStatus :=
  if negb (IsTerminalState (state t))
  then mkTaskStatus s r e (cancelFunc t) (waitGroup t)
  else t.

(** [func NewCompletedTask() *TaskStatus] *)
Definition NewCompletedTask : TaskStatus :=
  mkTaskStatus StateCompleted nil_any nil_error None None.

(** ** The runner *)

(** [fmt.Errorf("Panic cought: %v, StackTrace: %s, %w", r, debug.Stack(),
    ErrPanic)]: a fresh [*fmt.wrapError] whose [Unwrap] is [ErrPanic]. *)
Definition panic_error (rt : Runtime) (r : any) : error :=
  dyn_error "*fmt.wrapError" reflect.Pointer (Some (new_wrapError rt))
    ("Panic cought: " ++ fmt_v r ++ ", StackTrace: " ++ debug_Stack rt
       ++ ", " ++ Error ErrPanic)
    ErrPanic.

(** The body of [runAndTrackTask] after its two [defer]s: the call of the
    task has produced [call]; the body either reaches one of its two
    [finish] calls or panics (in [task] itself or in [IsNil]). *)
Definition runAndTrackTask_body (rt : Runtime) (record : TaskStatus)
    (call : exec (any * error)) : exec TaskStatus :=
  (re <- call ;;
   let '(result, err) := re in
   if is_nil_error err
   then Normal (finish record StateCompleted result nil_error)
   else
     isnil <- IsNil rt (reflect_ValueOf err) ;;
     if isnil
     then Normal (finish record StateCompleted result nil_error)
     else Normal (finish record StateFailed result err))%exec.

(** [recover()] in the deferred closure: nil when the body returned, the
    panic value when it panicked. *)
Definition recover {A : Type} (m : exec A) : any :=
  match m with Normal _ => nil_any | Panic v => v end.

(** [func runAndTrackTask(record *TaskStatus, task func(...))]: the body,
    then the deferred closure ([if r := recover(); r != nil]), then the
    deferred [record.waitGroup.Done()] (done by the caller of this function
    in the [World]).  The function always returns: the closure stops every
    panic of the body. *)
Definition runAndTrackTask (rt : Runtime) (record : TaskStatus)
    (call : exec (any * error)) : TaskStatus :=
  let body := runAndTrackTask_body rt record call in
  let record' := match body with Normal t => t | Panic _ => record end in
  let r := recover body in
  if negb (is_nil_any r)
  then finish record' StateFailed nil_any (panic_error rt r)
  else record'.

(** ** The world around one handle

    The handle is shared by the goroutine of [Start], by the callers of its
    methods and by the goroutines that [WaitWithTimeout] starts.  The world
    holds the handle, the objects its two references point to (the derived
    context and the wait group), a virtual clock in nanoseconds, and the
    goroutines that are still blocked.  A goroutine event takes place at its
    instant on that clock; a method call takes place at the instant [now].

    The clock is nominal: a sleep or a timer of the program ends at its
    instant on this clock, where the runtime only promises that it ends at
    or after it, so the clock orders the events and is no bound on real
    time.  Two events at the same instant are a race in the program; where
    the methods below have to decide one, they say so, and the properties
    that depend on the order of two events ask for different instants. *)

(** A task function as the runner meets it: left alone it takes [duration]
    and yields [yields]; if it watches its context, [on_cancel] tells how long
    after the cancellation it returns and what it yields then. *)
Record AsyncFunc : Type := mkAsyncFunc {
  duration : Z;
  yields : exec (any * error);
  on_cancel : option (Z * exec (any * error))
}.

(** The goroutine [go runAndTrackTask(record, task)] while it is inside
    [task]. *)
Record Goroutine : Type := mkGoroutine {
  finish_at : Z;
  call : exec (any * error);
  reacts : option (Z * exec (any * error));
  g_rt : Runtime
}.

Record World : Type := mkWorld {
  now : Z;
  handle : TaskStatus;
  ctx_done : bool;           (* the derived context has been canceled *)
  cancel_calls : nat;        (* how often its cancel function was invoked *)
  wg : nat;                  (* the counter of the wait group *)
  runner : option Goroutine;
  parked : nat               (* goroutines of WaitWithTimeout blocked in Wait *)
}.

Definition set_now (z : Z) (w : World) : World :=
  mkWorld z (handle w) (ctx_done w) (cancel_calls w) (wg w) (runner w)
    (parked w).

Definition set_handle (t : TaskStatus) (w : World) : World :=
  mkWorld (now w) t (ctx_done w) (cancel_calls w) (wg w) (runner w)
    (parked w).

Definition set_parked (n : nat) (w : World) : World :=
  mkWorld (now w) (handle w) (ctx_done w) (cancel_calls w) (wg w) (runner w) n.

(** The result of a call in a world: it returns a value and a new world, or
    the process dies of a panic nobody recovers, or the caller blocks for
    ever. *)
Inductive res (A : Type) : Type :=
| Ret (a : A) (w : World) : res A
| Crash (v : any) : res A
| Deadlock : res A.
Arguments Ret {A} a w.
Arguments Crash {A} v.
Arguments Deadlock {A}.

Definition M (A : Type) : Type := World -> res A.

Definition ret {A : Type} (a : A) : M A := fun w => Ret a w.

Definition mbind {A B : Type} (m : M A) (f : A -> M B) : M B :=
  fun w =>
    match m w with
    | Ret a w' => f a w'
    | Crash v => Crash v
    | Deadlock => Deadlock
    end.

Definition modify (f : World -> World) : M unit := fun w => Ret tt (f w).

Declare Scope world_scope.
Delimit Scope world_scope with world.
Notation "x <- m ;; k" := (mbind m (fun x => k))
  (at level 61, m at next level, right associativity) : world_scope.
Notation "m ;;; k" := (mbind m (fun _ => k))
  (at level 61, right associativity) : world_scope.

(** The value of a run-time panic on a nil pointer or a nil function. *)
Definition nil_dereference : any :=
  ErrVal (dyn_error "runtime.errorString" reflect.String None
    "runtime error: invalid memory address or nil pointer dereference"
    nil_error).

(** The cancel function of [context.WithCancel]: the context is done; a
    task that watches it and is still running changes course, once. *)
Definition cancel (w : World) : World :=
  let runner' :=
    if ctx_done w then runner w
    else match runner w with
         | Some g =>
             match reacts g with
             | Some (d, o) =>
                 Some (mkGoroutine (now w + Z.max 0 d) o None (g_rt g))
             | None => Some g
             end
         | None => None
         end in
  mkWorld (now w) (handle w) true (S (cancel_calls w)) (wg w) runner'
    (parked w).

(** [t.cancelFunc()] *)
Definition call_cancelFunc : M unit :=
  fun w =>
    match cancelFunc (handle w) with
    | None => Crash nil_dereference
    | Some cancel_ctx => Ret tt (cancel w)
    end.

(** The goroutines parked in [Wait] return: each runs its deferred
    [t.cancelFunc()]. *)
Fixpoint wake (n : nat) : M unit :=
  match n with
  | O => ret tt
  | S k => (call_cancelFunc ;;; wake k)%world
  end.

(** The task function of goroutine [g] returns or panics:
    [runAndTrackTask] finalizes the handle and its deferred
    [record.waitGroup.Done()] lowers the counter; at zero the parked
    goroutines wake. *)
Definition deliver (g : Goroutine) : M unit :=
  fun w =>
    match wg w with
    | O => Crash (StrVal "sync: negative WaitGroup counter")
    | S n =>
        let t := runAndTrackTask (g_rt g) (handle w) (call g) in
        let w1 := mkWorld (now w) t (ctx_done w) (cancel_calls w) n None
                    (parked w) in
        match n with
        | O => (wake (parked w1) ;;; modify (set_parked 0))%world w1
        | S _ => Ret tt w1
        end
    end.

(** The clock moves on to [z]; a goroutine event that is due by then takes
    place (an event due exactly at [z] included: the caller that sleeps or
    blocks until [z] comes after it). *)
Definition advance_to (z : Z) : M unit :=
  fun w =>
    let w1 := set_now (Z.max (now w) z) w in
    match runner w1 with
    | Some g => if finish_at g <=? now w1 then deliver g w1 else Ret tt w1
    | None => Ret tt w1
    end.

(** The instant at which [t.waitGroup.Wait()] would return, if ever. *)
Definition wg_zero_at (w : World) : option Z :=
  match wg w with
  | O => Some (now w)
  | S O => match runner w with
           | Some g => Some (Z.max (now w) (finish_at g))
           | None => None
           end
  | S (S _) => None
  end.

(** ** The methods of the handle *)

(** [func Start(ctx context.Context, task AsyncFunc) *TaskStatus], called
    at the instant [at]: the world of the new handle.  The field [err] is
    not set by the composite literal: it is nil.  The goroutine is started
    and has not run yet: a call at the very instant of [Start] finds the
    handle running, also when the task function takes no time (in the
    program the two race). *)
Definition Start (rt : Runtime) (at_ : Z) (task : AsyncFunc) : World :=
  mkWorld at_
    (mkTaskStatus StateRunning nil_any nil_error (Some cancel_ctx)
       (Some wg_ref))
    false 0 1
    (Some (mkGoroutine (at_ + Z.max 0 (duration task)) (yields task)
             (on_cancel task) rt))
    0.

(** The world of [NewCompletedTask()]: no context, no wait group, no
    goroutine. *)
Definition completed_world (at_ : Z) : World :=
  mkWorld at_ NewCompletedTask false 0 0 None 0.

(** [t.finish(state, result, err)] on the handle of the world. *)
Definition finish_handle (s : State) (r : any) (e : error) : M unit :=
  modify (fun w => set_handle (finish (handle w) s r e) w).

(** [func (t *TaskStatus) Cancel()] *)
Definition Cancel : M unit :=
  fun w =>
    if negb (IsTerminalState (state (handle w)))
    then (call_cancelFunc ;;;
          finish_handle StateCanceled nil_any ErrCanceled)%world w
    else Ret tt w.

(** [return t.result, t.err] *)
Definition result_and_err : M (any * error) :=
  fun w => Ret (result (handle w), err (handle w)) w.

(** [func (t *TaskStatus) Wait() (interface{}, error)].  The deferred
    [t.cancelFunc()] runs after the operands of [return] are evaluated. *)
Definition Wait : M (any * error) :=
  fun w =>
    if IsTerminalState (state (handle w))
    then result_and_err w
    else
      match waitGroup (handle w) with
      | None => Crash nil_dereference
      | Some wg_ref =>
          match wg_zero_at w with
          | None => Deadlock
          | Some z =>
              (advance_to z ;;;
               re <- result_and_err ;;
               call_cancelFunc ;;;
               ret re)%world w
          end
      end.

(** Which case of a [select] runs when both are ready at the same instant. *)
Inductive select_case : Type := case_ch | case_timer.

(** Whether the goroutine that [WaitWithTimeout] starts reaches
    [t.waitGroup.Wait()] before the timer fires.  It does when the timer is
    set for a later instant.  With [timeout <= 0] the timer fires at the
    instant the goroutine is started and the two race: [pick] tells which
    side came first. *)
Definition goroutine_first (pick : select_case) (timeout : Z) : bool :=
  (0 <? timeout)
  || match pick with case_ch => true | case_timer => false end.

(** [func (t *TaskStatus) WaitWithTimeout(timeout time.Duration)].

    [ch] is closed when the [t.Wait()] of the goroutine started here
    returns, at [wg_zero_at]; the timer of [time.After(timeout)] fires at
    the instant [now + timeout] of the nominal clock (at once when
    [timeout <= 0]; instants are unbounded integers, where the runtime clamps
    a deadline to the range of [int64]).  The earlier of the two decides the
    [select]; [pick] decides when they coincide.

    In the timer case the wait group is not at zero (or [ch] would have been
    ready).  If the goroutine reached [t.waitGroup.Wait()] before the timer
    ([goroutine_first]) it stays parked there; if the timer and its
    [finish] came first, the goroutine finds the handle terminal, its
    [t.Wait()] returns at the guard and it ends without calling the cancel
    function. *)
Definition WaitWithTimeout (pick : select_case) (timeout : Z)
  : M (any * error) :=
  fun w =>
    if IsTerminalState (state (handle w))
    then result_and_err w
    else
      match waitGroup (handle w) with
      | None => Crash nil_dereference
      | Some wg_ref =>
          let deadline := now w + Z.max 0 timeout in
          let ch_first :=
            match wg_zero_at w with
            | None => false
            | Some z =>
                (z <? deadline)
                || ((z =? deadline)
                    && match pick with case_ch => true | case_timer => false end)
            end in
          if ch_first
          then (Wait ;;; result_and_err)%world w
          else
            (modify (set_now deadline) ;;;
             finish_handle StateCanceled nil_any ErrTimeout ;;;
             (if goroutine_first pick timeout
              then modify (fun w' => set_parked (S (parked w')) w')
              else ret tt) ;;;
             result_and_err)%world w
      end.

(** [time.Sleep(d)] in the caller: with [d <= 0] it returns at once and
    nothing else happens in the meantime; otherwise the clock moves on by
    [d]. *)
Definition Sleep (d : Z) : M unit :=
  fun w => if d <=? 0 then Ret tt w else advance_to (now w + d) w.

(** ** Sequences of calls *)

Inductive method : Type :=
| mState
| mCancel
| mWait
| mWaitWithTimeout (pick : select_case) (timeout : Z)
| mSleep (d : Z).

Inductive reply : Type :=
| Nothing
| Current (s : State)
| Outcome (v : any) (e : error).

Definition exec_method (m : method) : M reply :=
  match m with
  | mState => fun w => Ret (Current (State_of (handle w))) w
  | mCancel => (Cancel ;;; ret Nothing)%world
  | mWait => (re <- Wait ;; ret (Outcome (fst re) (snd re)))%world
  | mWaitWithTimeout pick timeout =>
      (re <- WaitWithTimeout pick timeout ;;
       ret (Outcome (fst re) (snd re)))%world
  | mSleep d => (Sleep d ;;; ret Nothing)%world
  end.

(** What a caller observes of one call: the reply and the time it took. *)
Record observation : Type := mkObservation {
  made : method;
  replied : reply;
  took : Z
}.

Definition observe (m : method) : M observation :=
  fun w =>
    match exec_method m w with
    | Ret r w' => Ret (mkObservation m r (now w' - now w)) w'
    | Crash v => Crash v
    | Deadlock => Deadlock
    end.

Fixpoint run (ms : list method) : M (list observation) :=
  match ms with
  | [] => ret []
  | m :: rest =>
      (o <- observe m ;; os <- run rest ;; ret (o :: os))%world
  end.

(** ** Durations *)

Definition Nanosecond : Z := 1.
Definition Millisecond : Z := 1000000 * Nanosecond.
Definition Second : Z := 1000 * Millisecond.

(** ** Invariants, and the values of the scenarios *)

(** The arguments with which the program calls [finish]. *)
Definition committed (s : State) (e : error) : Prop :=
  (s = StateCompleted /\ e = nil_error)
  \/ ((s = StateFailed \/ s = StateCanceled) /\ e <> nil_error).

(** The relation between state and error that callers rely on. *)
Definition sound (t : TaskStatus) : Prop :=
  (state t = StateCompleted -> err t = nil_error)
  /\ (state t = StateFailed \/ state t = StateCanceled -> err t <> nil_error).

(** [evolves t t']: what any number of finalize attempts can do to a
    handle. *)
Definition evolves (t t' : TaskStatus) : Prop :=
  cancelFunc t' = cancelFunc t
  /\ waitGroup t' = waitGroup t
  /\ (IsTerminalState (state t) = true -> t' = t)
  /\ (sound t -> sound t')
  /\ (t' = t \/ IsTerminalState (state t') = true).

(** The kinds on which [IsNil] is defined. *)
Definition nilable (k : reflect.Kind) : bool :=
  match k with
  | reflect.Chan | reflect.Func | reflect.Map | reflect.Pointer
  | reflect.UnsafePointer | reflect.Interface | reflect.Slice => true
  | _ => false
  end.

(** The world of a handle made by [Start]: both references are set, and
    the wait group counts the goroutine of [Start] while it runs. *)
Definition started (w : World) : Prop :=
  cancelFunc (handle w) = Some cancel_ctx
  /\ waitGroup (handle w) = Some wg_ref
  /\ wg w = match runner w with Some _ => 1%nat | None => 0%nat end.

(** The world of a handle made by [NewCompletedTask]. *)
Definition presatisfied (w : World) : Prop :=
  IsTerminalState (state (handle w)) = true
  /\ runner w = None
  /\ parked w = 0%nat.

Definition well_formed (w : World) : Prop := started w \/ presatisfied w.

(** What a caller observes of a call that neither blocks nor changes the
    handle [t]. *)
Definition immediate (t : TaskStatus) (o : observation) : Prop :=
  match made o with
  | mState => replied o = Current (state t) /\ took o = 0
  | mCancel => replied o = Nothing /\ took o = 0
  | mWait | mWaitWithTimeout _ _ =>
      replied o = Outcome (result t) (err t) /\ took o = 0
  | mSleep _ => replied o = Nothing
  end.

(** Finalize attempts in a row, as [finish] sees them. *)
Definition attempt : Type := (State * any * error)%type.

Definition finish_all (t : TaskStatus) (l : list attempt) : TaskStatus :=
  fold_left (fun t' a => finish t' (fst (fst a)) (snd (fst a)) (snd a)) l t.

(** [type structError struct{}] with [Error] on the value, and
    [type pointerError struct{}] with [Error] on the pointer. *)
Definition structError : error :=
  dyn_error "asynctask_test.structError" reflect.Struct None
    "Error from struct type" nil_error.

Definition pointerError (p : option positive) : error :=
  dyn_error "*asynctask_test.pointerError" reflect.Pointer p
    "Error from pointer type" nil_error.

Definition a_runtime : Runtime := mkRuntime "goroutine 7 [running]:" 101 102.

Definition a_running_handle : TaskStatus :=
  mkTaskStatus StateRunning nil_any nil_error (Some cancel_ctx) (Some wg_ref).

(** The task function of the scenario: it takes 200ms and returns
    [(9, nil)]. *)
Definition nine_after_200ms (react : option (Z * exec (any * error)))
  : AsyncFunc :=
  mkAsyncFunc (200 * Millisecond) (Normal (IntVal 9, nil_error)) react.

(** A task function that takes two seconds. *)
Definition nine_after_2s : AsyncFunc :=
  mkAsyncFunc (2 * Second) (Normal (IntVal 9, nil_error)) None.

(** The zero value [TaskStatus{}], at some instant. *)
Definition zero_world : World :=
  mkWorld 0 (mkTaskStatus "" nil_any nil_error None None) false 0 0 None 0.

(** [func getErrorTask(errorString string, sleepDuration time.Duration)]
    of the tests: the task function sleeps and returns
    [(nil, errors.New(errorString))]; [a] is the address of that
    allocation. *)
Definition getErrorTask (a : positive) (errorString : string)
    (sleepDuration : Z) : AsyncFunc :=
  mkAsyncFunc sleepDuration (Normal (nil_any, errors_New a errorString)) None.

(** * Properties *)

(** ** Terminal states and [finish] *)

Lemma IsTerminalState_true_iff (s : State) :
  IsTerminalState s = true <-> s <> StateRunning.
Proof.
  unfold IsTerminalState.
  rewrite negb_true_iff.
  apply String.eqb_neq.
Qed.

Lemma finish_terminal (t : TaskStatus) (s : State) (r : any) (e : error) :
  IsTerminalState (state t) = true -> finish t s r e = t.
Proof.
  intros H. unfold finish. now rewrite H.
Qed.

Lemma finish_running (t : TaskStatus) (s : State) (r : any) (e : error) :
  IsTerminalState (state t) = false ->
  finish t s r e = mkTaskStatus s r e (cancelFunc t) (waitGroup t).
Proof.
  intros H. unfold finish. now rewrite H.
Qed.

Lemma evolves_refl (t : TaskStatus) : evolves t t.
Proof. unfold evolves; auto 6. Qed.

Lemma evolves_trans (a b c : TaskStatus) :
  evolves a b -> evolves b c -> evolves a c.
Proof.
  intros (C1 & W1 & F1 & S1 & O1) (C2 & W2 & F2 & S2 & O2).
  split; [congruence | split; [congruence | split; [| split]]].
  - intros T. specialize (F1 T). subst b. auto.
  - auto.
  - destruct O1 as [-> | T1]; [assumption |].
    right. now rewrite (F2 T1).
Qed.

Lemma committed_terminal (s : State) (e : error) :
  committed s e -> IsTerminalState s = true.
Proof. intros [[-> _] | [[-> | ->] _]]; reflexivity. Qed.

Lemma sound_committed (s : State) (r : any) (e : error)
    (c : option CancelFunc) (g : option WaitGroupRef) :
  committed s e -> sound (mkTaskStatus s r e c g).
Proof.
  unfold committed, sound; cbn [state err].
  intros [[-> ->] | [[-> | ->] Hne]]; split; intros H; auto;
    try discriminate; destruct H; discriminate.
Qed.

Lemma evolves_finish (t : TaskStatus) (s : State) (r : any) (e : error) :
  committed s e -> evolves t (finish t s r e).
Proof.
  intros Hc.
  destruct (IsTerminalState (state t)) eqn:T.
  - rewrite finish_terminal by assumption. apply evolves_refl.
  - rewrite finish_running by assumption.
    unfold evolves; cbn [cancelFunc waitGroup].
    split; [reflexivity | split; [reflexivity | split; [| split]]].
    + congruence.
    + intros _; now apply sound_committed.
    + right. cbn [state]. now apply (committed_terminal s e).
Qed.

Lemma committed_Completed : committed StateCompleted nil_error.
Proof. left; auto. Qed.

Lemma committed_Failed (e : error) :
  e <> nil_error -> committed StateFailed e.
Proof. right; auto. Qed.

Lemma committed_Canceled (e : error) :
  e <> nil_error -> committed StateCanceled e.
Proof. right; auto. Qed.

Lemma panic_error_not_nil (rt : Runtime) (r : any) :
  panic_error rt r <> nil_error.
Proof. discriminate. Qed.

Lemma ErrTimeout_not_nil : ErrTimeout <> nil_error.
Proof. discriminate. Qed.

Lemma ErrCanceled_not_nil : ErrCanceled <> nil_error.
Proof. discriminate. Qed.

Create HintDb task.

#[local] Hint Resolve evolves_refl evolves_finish committed_Completed
  committed_Failed committed_Canceled panic_error_not_nil
  ErrTimeout_not_nil ErrCanceled_not_nil : task.

(** ** The runner *)

(** What the runner does with each kind of outcome of the task function. *)
Lemma runner_panic (rt : Runtime) (t : TaskStatus) (v : any) :
  v <> nil_any ->
  runAndTrackTask rt t (Panic v)
  = finish t StateFailed nil_any (panic_error rt v).
Proof.
  intros Hv. unfold runAndTrackTask; cbn.
  destruct v; [contradiction | reflexivity ..].
Qed.

Lemma runner_panic_nil (rt : Runtime) (t : TaskStatus) :
  runAndTrackTask rt t (Panic nil_any) = t.
Proof. reflexivity. Qed.

Lemma runner_nil_error (rt : Runtime) (t : TaskStatus) (v : any) :
  runAndTrackTask rt t (Normal (v, nil_error))
  = finish t StateCompleted v nil_error.
Proof. reflexivity. Qed.

Lemma runner_nil_inside (rt : Runtime) (t : TaskStatus) (v : any)
    (ty : string) (k : reflect.Kind) (msg : string) (inner : error) :
  nilable k = true ->
  runAndTrackTask rt t (Normal (v, dyn_error ty k None msg inner))
  = finish t StateCompleted v nil_error.
Proof.
  intros Hk; destruct k; try discriminate Hk; reflexivity.
Qed.

Lemma runner_error (rt : Runtime) (t : TaskStatus) (v : any)
    (ty : string) (k : reflect.Kind) (a : positive) (msg : string)
    (inner : error) :
  nilable k = true ->
  runAndTrackTask rt t (Normal (v, dyn_error ty k (Some a) msg inner))
  = finish t StateFailed v (dyn_error ty k (Some a) msg inner).
Proof.
  intros Hk; destruct k; try discriminate Hk; reflexivity.
Qed.

Lemma runner_IsNil_panics (rt : Runtime) (t : TaskStatus) (v : any)
    (ty : string) (k : reflect.Kind) (p : option positive) (msg : string)
    (inner : error) :
  nilable k = false ->
  runAndTrackTask rt t (Normal (v, dyn_error ty k p msg inner))
  = finish t StateFailed nil_any
      (panic_error rt
         (ErrVal (ValueError (new_ValueError rt) "reflect.Value.IsNil" k))).
Proof.
  intros Hk; destruct k; try discriminate Hk; reflexivity.
Qed.

Lemma evolves_runner (rt : Runtime) (t : TaskStatus)
    (c : exec (any * error)) :
  evolves t (runAndTrackTask rt t c).
Proof.
  destruct c as [[v e] | v].
  - destruct e as [| ty k p msg inner].
    + rewrite runner_nil_error; auto with task.
    + destruct (nilable k) eqn:Hk.
      * destruct p as [a |].
        -- rewrite runner_error by assumption.
           apply evolves_finish, committed_Failed; discriminate.
        -- rewrite runner_nil_inside by assumption; auto with task.
      * rewrite runner_IsNil_panics by assumption; auto with task.
  - destruct (is_nil_any v) eqn:Hv.
    + destruct v; try discriminate Hv. rewrite runner_panic_nil.
      auto with task.
    + rewrite runner_panic by (intros ->; discriminate Hv).
      auto with task.
Qed.

Lemma runner_frozen (rt : Runtime) (t : TaskStatus) (c : exec (any * error)) :
  IsTerminalState (state t) = true -> runAndTrackTask rt t c = t.
Proof.
  intros T. now apply (evolves_runner rt t c).
Qed.

Lemma finish_is_terminal (t : TaskStatus) (s : State) (r : any) (e : error) :
  IsTerminalState s = true ->
  IsTerminalState (state (finish t s r e)) = true.
Proof.
  intros Hs. destruct (IsTerminalState (state t)) eqn:T.
  - now rewrite finish_terminal.
  - now rewrite finish_running.
Qed.

Lemma runner_outcome_is_terminal (rt : Runtime) (t : TaskStatus)
    (c : exec (any * error)) :
  c <> Panic nil_any ->
  IsTerminalState (state (runAndTrackTask rt t c)) = true.
Proof.
  intros Hc.
  destruct c as [[v e] | v].
  - destruct e as [| ty k p msg inner].
    + rewrite runner_nil_error. now apply finish_is_terminal.
    + destruct (nilable k) eqn:Hk.
      * destruct p as [a |].
        -- rewrite runner_error by assumption. now apply finish_is_terminal.
        -- rewrite runner_nil_inside by assumption.
           now apply finish_is_terminal.
      * rewrite runner_IsNil_panics by assumption.
        now apply finish_is_terminal.
  - rewrite runner_panic by (intros ->; now apply Hc).
    now apply finish_is_terminal.
Qed.

(** ** Worlds the program can be in *)

Lemma started_Start (rt : Runtime) (at_ : Z) (task : AsyncFunc) :
  started (Start rt at_ task).
Proof. repeat split. Qed.

Lemma presatisfied_completed_world (at_ : Z) :
  presatisfied (completed_world at_).
Proof. repeat split. Qed.

Lemma cancel_handle (w : World) : handle (cancel w) = handle w.
Proof. reflexivity. Qed.

Lemma cancel_now (w : World) : now (cancel w) = now w.
Proof. reflexivity. Qed.

Lemma cancel_runner_None (w : World) :
  runner w = None -> runner (cancel w) = None.
Proof.
  intros H. unfold cancel; cbn [runner]. rewrite H.
  now destruct (ctx_done w).
Qed.

Lemma cancel_started (w : World) : started w -> started (cancel w).
Proof.
  intros (C & G & N). unfold started. rewrite cancel_handle.
  split; [assumption | split; [assumption |]].
  unfold cancel; cbn [wg runner]. rewrite N.
  destruct (ctx_done w); [reflexivity |].
  destruct (runner w) as [g |]; [| reflexivity].
  now destruct (reacts g) as [[d o] |].
Qed.

Lemma call_cancelFunc_started (w : World) :
  started w -> call_cancelFunc w = Ret tt (cancel w).
Proof.
  intros (C & _). unfold call_cancelFunc. now rewrite C.
Qed.

Lemma wake_started (n : nat) (w : World) :
  started w ->
  exists w', wake n w = Ret tt w'
    /\ started w' /\ handle w' = handle w /\ now w' = now w
    /\ parked w' = parked w
    /\ (runner w = None -> runner w' = None).
Proof.
  revert w; induction n as [| n IH]; intros w S.
  - exists w. cbn. auto 10.
  - cbn [wake]. unfold mbind. rewrite call_cancelFunc_started by assumption.
    destruct (IH (cancel w) (cancel_started w S))
      as (w' & E & S' & H' & N' & P' & R').
    exists w'. rewrite E.
    split; [reflexivity | split; [assumption |]].
    rewrite H', N', P'.
    repeat split.
    intros R. apply R'. now apply cancel_runner_None.
Qed.

(** The goroutine of [Start] leaves [task]. *)
Lemma deliver_started (g : Goroutine) (w : World) :
  started w -> runner w = Some g ->
  exists w', deliver g w = Ret tt w'
    /\ started w'
    /\ handle w' = runAndTrackTask (g_rt g) (handle w) (call g)
    /\ now w' = now w
    /\ runner w' = None.
Proof.
  intros (C & G & N) R. rewrite R in N.
  unfold deliver. rewrite N.
  set (w1 := mkWorld _ _ _ _ _ _ _).
  assert (S1 : started w1).
  { destruct (evolves_runner (g_rt g) (handle w) (call g)) as (C' & G' & _).
    unfold started, w1; cbn [handle wg runner].
    repeat split; congruence. }
  destruct (wake_started (parked w1) w1 S1) as (w' & E & S' & H' & N' & P' & R').
  unfold mbind. rewrite E. unfold modify.
  exists (set_parked 0 w').
  repeat split; try apply S'; cbn [set_parked handle now runner];
    try assumption; auto.
Qed.

Lemma advance_to_started (z : Z) (w : World) :
  started w ->
  exists w', advance_to z w = Ret tt w'
    /\ started w'
    /\ evolves (handle w) (handle w')
    /\ now w' = Z.max (now w) z
    /\ match runner w with
       | Some g =>
           if finish_at g <=? Z.max (now w) z
           then handle w' = runAndTrackTask (g_rt g) (handle w) (call g)
                /\ runner w' = None
           else handle w' = handle w /\ runner w' = Some g
       | None => handle w' = handle w /\ runner w' = None
       end.
Proof.
  intros S. unfold advance_to.
  set (w1 := set_now (Z.max (now w) z) w).
  assert (S1 : started w1) by exact S.
  change (runner w1) with (runner w).
  change (now w1) with (Z.max (now w) z).
  destruct (runner w) as [g |] eqn:R.
  - destruct (finish_at g <=? Z.max (now w) z).
    + destruct (deliver_started g w1 S1 R) as (w' & E & S' & H' & N' & R').
      exists w'. rewrite E.
      split; [reflexivity | split; [assumption | split; [| split]]].
      * rewrite H'. apply evolves_runner.
      * exact N'.
      * split; assumption.
    + exists w1.
      split; [reflexivity | split; [assumption | split; [| split]]];
        auto with task.
  - exists w1.
    split; [reflexivity | split; [assumption | split; [| split]]];
      auto with task.
Qed.

(** ** The methods on a terminal handle *)

Lemma Cancel_terminal (w : World) :
  IsTerminalState (state (handle w)) = true -> Cancel w = Ret tt w.
Proof. intros T. unfold Cancel. now rewrite T. Qed.

Lemma Wait_terminal (w : World) :
  IsTerminalState (state (handle w)) = true ->
  Wait w = Ret (result (handle w), err (handle w)) w.
Proof. intros T. unfold Wait. now rewrite T. Qed.

Lemma WaitWithTimeout_terminal (pick : select_case) (timeout : Z) (w : World) :
  IsTerminalState (state (handle w)) = true ->
  WaitWithTimeout pick timeout w = Ret (result (handle w), err (handle w)) w.
Proof. intros T. unfold WaitWithTimeout. now rewrite T. Qed.

(** ** The methods on a running handle made by [Start] *)

Lemma wg_zero_at_started (w : World) :
  started w ->
  wg_zero_at w
  = Some (match runner w with
          | Some g => Z.max (now w) (finish_at g)
          | None => now w
          end).
Proof.
  intros (_ & _ & N). unfold wg_zero_at. rewrite N.
  now destruct (runner w).
Qed.

Lemma Cancel_running (w : World) :
  cancelFunc (handle w) = Some cancel_ctx ->
  IsTerminalState (state (handle w)) = false ->
  Cancel w
  = Ret tt (set_handle
              (mkTaskStatus StateCanceled nil_any ErrCanceled
                 (cancelFunc (handle w)) (waitGroup (handle w)))
              (cancel w)).
Proof.
  intros C T. unfold Cancel. rewrite T. cbn [negb].
  unfold mbind, call_cancelFunc. rewrite C.
  unfold finish_handle, modify. rewrite cancel_handle.
  rewrite finish_running by assumption. now rewrite C.
Qed.

(** A blocking [Wait] returns when the goroutine of [Start] has left
    [task], with what the runner committed. *)
Lemma Wait_running (w : World) :
  started w ->
  IsTerminalState (state (handle w)) = false ->
  exists w',
    Wait w = Ret (result (handle w'), err (handle w')) w'
    /\ started w'
    /\ runner w' = None
    /\ match runner w with
       | Some g =>
           handle w' = runAndTrackTask (g_rt g) (handle w) (call g)
           /\ now w' = Z.max (now w) (finish_at g)
       | None => handle w' = handle w /\ now w' = now w
       end.
Proof.
  intros S T. unfold Wait. rewrite T.
  replace (waitGroup (handle w)) with (Some wg_ref)
    by (symmetry; apply S).
  rewrite (wg_zero_at_started w S).
  set (z := match runner w with
            | Some g => Z.max (now w) (finish_at g)
            | None => now w
            end).
  destruct (advance_to_started z w S) as (w1 & E & S1 & _ & N1 & R1).
  unfold mbind at 1. rewrite E.
  unfold mbind at 1. unfold result_and_err at 1.
  unfold mbind. rewrite (call_cancelFunc_started w1 S1). unfold ret.
  exists (cancel w1). rewrite cancel_handle.
  split; [reflexivity | split; [now apply cancel_started | ]].
  subst z. destruct (runner w) as [g |] eqn:R.
  - assert (D : (finish_at g <=? Z.max (now w) (Z.max (now w) (finish_at g)))
                = true) by (apply Z.leb_le; lia).
    rewrite D in R1. destruct R1 as (H1 & R1).
    split; [now apply cancel_runner_None | split; [assumption |]].
    rewrite cancel_now, N1. lia.
  - destruct R1 as (H1 & R1).
    split; [now apply cancel_runner_None | split; [assumption |]].
    rewrite cancel_now, N1. lia.
Qed.

(** The timer case of [WaitWithTimeout]: the deadline comes before the task
    function returns. *)
Lemma WaitWithTimeout_timer (pick : select_case) (timeout : Z) (w : World)
    (g : Goroutine) :
  started w ->
  IsTerminalState (state (handle w)) = false ->
  runner w = Some g ->
  now w + Z.max 0 timeout < finish_at g ->
  WaitWithTimeout pick timeout w
  = Ret (nil_any, ErrTimeout)
      (set_parked
         (if goroutine_first pick timeout then S (parked w) else parked w)
         (set_handle
            (mkTaskStatus StateCanceled nil_any ErrTimeout
               (cancelFunc (handle w)) (waitGroup (handle w)))
            (set_now (now w + Z.max 0 timeout) w))).
Proof.
  intros Hs T R L. unfold WaitWithTimeout. rewrite T.
  rewrite (wg_zero_at_started w Hs), R.
  destruct Hs as (C & G & N). rewrite G.
  replace (Z.max (now w) (finish_at g) <? now w + Z.max 0 timeout)
    with false by (symmetry; apply Z.ltb_ge; lia).
  replace (Z.max (now w) (finish_at g) =? now w + Z.max 0 timeout)
    with false by (symmetry; apply Z.eqb_neq; lia).
  cbn [orb andb].
  cbv beta iota delta [mbind modify finish_handle result_and_err ret].
  cbn [set_now handle].
  rewrite finish_running by assumption. rewrite G.
  destruct (goroutine_first pick timeout); reflexivity.
Qed.

(** The channel case: the task function returns before the deadline. *)
Lemma WaitWithTimeout_ch (pick : select_case) (timeout : Z) (w : World)
    (g : Goroutine) :
  started w ->
  IsTerminalState (state (handle w)) = false ->
  runner w = Some g ->
  Z.max (now w) (finish_at g) < now w + Z.max 0 timeout ->
  exists w',
    WaitWithTimeout pick timeout w
    = Ret (result (handle w'), err (handle w')) w'
    /\ started w'
    /\ runner w' = None
    /\ handle w' = runAndTrackTask (g_rt g) (handle w) (call g)
    /\ now w' = Z.max (now w) (finish_at g).
Proof.
  intros S T R L. unfold WaitWithTimeout. rewrite T.
  rewrite (wg_zero_at_started w S), R.
  destruct (Wait_running w S T) as (w' & E & S' & R' & H').
  rewrite R in H'. destruct H' as (H' & N').
  destruct S as (C & G & N). rewrite G.
  replace (Z.max (now w) (finish_at g) <? now w + Z.max 0 timeout)
    with true by (symmetry; apply Z.ltb_lt; lia).
  cbn [orb]. unfold mbind. rewrite E. unfold result_and_err.
  exists w'. auto.
Qed.

Lemma WaitWithTimeout_running (pick : select_case) (timeout : Z) (w : World) :
  started w ->
  IsTerminalState (state (handle w)) = false ->
  exists w',
    WaitWithTimeout pick timeout w
    = Ret (result (handle w'), err (handle w')) w'
    /\ started w'
    /\ evolves (handle w) (handle w')
    /\ now w <= now w'.
Proof.
  intros Hs T. unfold WaitWithTimeout. rewrite T.
  replace (waitGroup (handle w)) with (Some wg_ref) by (symmetry; apply Hs).
  rewrite (wg_zero_at_started w Hs).
  match goal with |- context [if ?b then _ else _] => destruct b end.
  - destruct (Wait_running w Hs T) as (w' & E & S' & R' & H').
    unfold mbind. rewrite E. unfold result_and_err.
    exists w'. split; [reflexivity | split; [assumption |]].
    destruct (runner w) as [g |]; destruct H' as (-> & ->).
    + split; [apply evolves_runner | lia].
    + split; [apply evolves_refl | lia].
  - cbv beta iota delta [mbind modify finish_handle result_and_err ret].
    set (w1 := set_now (now w + Z.max 0 timeout) w).
    change (handle w1) with (handle w).
    set (t1 := finish (handle w) StateCanceled nil_any ErrTimeout).
    assert (Ev : evolves (handle w) t1) by (subst t1; auto with task).
    assert (S1 : started (set_handle t1 w1)).
    { destruct Hs as (C & G & N). destruct Ev as (C' & G' & _).
      unfold started; cbn [set_handle handle wg runner set_now w1].
      repeat split; congruence. }
    destruct (goroutine_first pick timeout).
    + exists (set_parked (S (parked (set_handle t1 w1))) (set_handle t1 w1)).
      split; [reflexivity | split; [exact S1 |]].
      cbn [set_parked set_handle handle now set_now w1].
      split; [assumption | lia].
    + exists (set_handle t1 w1).
      split; [reflexivity | split; [exact S1 |]].
      cbn [set_handle handle now set_now w1].
      split; [assumption | lia].
Qed.

(** Whichever case of the [select] runs, a [WaitWithTimeout] on a running
    handle leaves it terminal: with what the runner committed, or with the
    timeout. *)
Lemma WaitWithTimeout_commits (pick : select_case) (timeout : Z) (w : World)
    (g : Goroutine) :
  started w ->
  IsTerminalState (state (handle w)) = false ->
  runner w = Some g ->
  call g <> Panic nil_any ->
  exists w',
    WaitWithTimeout pick timeout w
    = Ret (result (handle w'), err (handle w')) w'
    /\ started w'
    /\ IsTerminalState (state (handle w')) = true
    /\ (handle w' = runAndTrackTask (g_rt g) (handle w) (call g)
        \/ handle w'
           = mkTaskStatus StateCanceled nil_any ErrTimeout
               (cancelFunc (handle w)) (waitGroup (handle w))).
Proof.
  intros Hs T R Hc. unfold WaitWithTimeout. rewrite T.
  replace (waitGroup (handle w)) with (Some wg_ref) by (symmetry; apply Hs).
  rewrite (wg_zero_at_started w Hs).
  match goal with |- context [if ?b then _ else _] => destruct b end.
  - destruct (Wait_running w Hs T) as (w' & E & S' & R' & H').
    rewrite R in H'. destruct H' as (H' & _).
    unfold mbind. rewrite E. unfold result_and_err.
    exists w'. split; [reflexivity | split; [assumption | split]].
    + rewrite H'. now apply runner_outcome_is_terminal.
    + now left.
  - cbv beta iota delta [mbind modify finish_handle result_and_err ret].
    set (w1 := set_now (now w + Z.max 0 timeout) w).
    change (handle w1) with (handle w).
    rewrite finish_running by assumption.
    set (t1 := mkTaskStatus _ _ _ _ _).
    assert (S1 : started (set_handle t1 w1)).
    { destruct Hs as (C & G & N).
      unfold started; cbn [set_handle handle wg runner set_now w1 t1
                           cancelFunc waitGroup].
      auto. }
    destruct (goroutine_first pick timeout).
    + exists (set_parked (S (parked (set_handle t1 w1))) (set_handle t1 w1)).
      split; [reflexivity | split; [exact S1 | split; [reflexivity |]]].
      right. cbn [set_parked set_handle handle]. unfold t1.
      f_equal. apply Hs.
    + exists (set_handle t1 w1).
      split; [reflexivity | split; [exact S1 | split; [reflexivity |]]].
      right. cbn [set_handle handle]. unfold t1.
      f_equal. apply Hs.
Qed.

(** ** [errors.Is] and the chain of an error *)




(** ** Every call returns, and the handle only [evolves] *)

Ltac unchanged :=
  split; [reflexivity | split; [assumption | split; [auto with task | lia]]].

Lemma exec_method_started (m : method) (w : World) :
  started w ->
  exists r w',
    exec_method m w = Ret r w'
    /\ started w'
    /\ evolves (handle w) (handle w')
    /\ now w <= now w'.
Proof.
  intros Hs. destruct m as [| | | pick timeout | d]; cbn [exec_method].
  - exists (Current (State_of (handle w))), w. unchanged.
  - unfold mbind, ret.
    destruct (IsTerminalState (state (handle w))) eqn:T.
    + rewrite Cancel_terminal by assumption.
      exists Nothing, w. unchanged.
    + rewrite Cancel_running by (assumption || apply Hs).
      eexists _, _. split; [reflexivity |].
      pose proof (cancel_started w Hs) as (C & G & N).
      split; [| split].
      * unfold started; cbn [set_handle handle cancelFunc waitGroup wg runner].
        destruct Hs as (C0 & G0 & _). now rewrite C0, G0.
      * cbn [set_handle handle].
        rewrite <- (finish_running (handle w) StateCanceled nil_any
                      ErrCanceled T).
        auto with task.
      * cbn [set_handle now]. rewrite cancel_now. lia.
  - unfold mbind, ret.
    destruct (IsTerminalState (state (handle w))) eqn:T.
    + rewrite Wait_terminal by assumption.
      eexists _, w. unchanged.
    + destruct (Wait_running w Hs T) as (w' & E & S' & R' & H').
      rewrite E. eexists _, w'.
      split; [reflexivity | split; [assumption |]].
      destruct (runner w) as [g |]; destruct H' as (-> & ->).
      * split; [apply evolves_runner | lia].
      * split; [apply evolves_refl | lia].
  - unfold mbind, ret.
    destruct (IsTerminalState (state (handle w))) eqn:T.
    + rewrite WaitWithTimeout_terminal by assumption.
      eexists _, w. unchanged.
    + destruct (WaitWithTimeout_running pick timeout w Hs T)
        as (w' & E & S' & Ev & L).
      rewrite E. eexists _, w'. auto.
  - unfold mbind, ret, Sleep.
    destruct (d <=? 0); [eexists _, w; unchanged |].
    destruct (advance_to_started (now w + d) w Hs)
      as (w' & E & S' & Ev & N & _).
    rewrite E. eexists _, w'.
    split; [reflexivity | split; [assumption | split; [assumption | lia]]].
Qed.

Lemma exec_method_presatisfied (m : method) (w : World) :
  presatisfied w ->
  exists r w',
    exec_method m w = Ret r w'
    /\ presatisfied w'
    /\ handle w' = handle w
    /\ now w <= now w'.
Proof.
  intros Hp. pose proof Hp as (T & R & P).
  destruct m as [| | | pick timeout | d];
    cbn [exec_method]; unfold mbind, ret.
  - eexists _, w. unchanged.
  - rewrite Cancel_terminal by assumption.
    eexists _, w. unchanged.
  - rewrite Wait_terminal by assumption.
    eexists _, w. unchanged.
  - rewrite WaitWithTimeout_terminal by assumption.
    eexists _, w. unchanged.
  - unfold Sleep, advance_to. cbn [set_now runner]. rewrite R.
    destruct (d <=? 0); [eexists _, w; unchanged |].
    eexists _, _. split; [reflexivity |].
    split; [exact Hp | split; [reflexivity | cbn [set_now now]; lia]].
Qed.

Lemma exec_method_well_formed (m : method) (w : World) :
  well_formed w ->
  exists r w',
    exec_method m w = Ret r w'
    /\ well_formed w'
    /\ evolves (handle w) (handle w')
    /\ now w <= now w'.
Proof.
  intros [S | P].
  - destruct (exec_method_started m w S) as (r & w' & E & S' & Ev & L).
    exists r, w'. unfold well_formed. auto.
  - destruct (exec_method_presatisfied m w P) as (r & w' & E & P' & H & L).
    exists r, w'. unfold well_formed. rewrite H. auto with task.
Qed.

Lemma run_well_formed (ms : list method) (w : World) :
  well_formed w ->
  exists obs w',
    run ms w = Ret obs w'
    /\ well_formed w'
    /\ evolves (handle w) (handle w')
    /\ now w <= now w'.
Proof.
  revert w; induction ms as [| m ms IH]; intros w W.
  - exists [], w. cbn. unchanged.
  - destruct (exec_method_well_formed m w W) as (r & w1 & E & W1 & Ev1 & L1).
    destruct (IH w1 W1) as (obs & w' & E' & W' & Ev' & L').
    cbn [run]. unfold mbind, observe, ret. rewrite E, E'.
    eexists _, w'. split; [reflexivity | split; [assumption | split]].
    + eapply evolves_trans; eassumption.
    + lia.
Qed.

(** ** Calls on a terminal handle *)

Lemma observe_terminal (m : method) (w : World) :
  well_formed w ->
  IsTerminalState (state (handle w)) = true ->
  exists o w',
    observe m w = Ret o w'
    /\ well_formed w'
    /\ handle w' = handle w
    /\ immediate (handle w) o.
Proof.
  intros W T.
  assert (same : forall r, exec_method m w = Ret r w ->
            immediate (handle w) (mkObservation m r (now w - now w)) ->
            exists o w', observe m w = Ret o w' /\ well_formed w'
                         /\ handle w' = handle w /\ immediate (handle w) o).
  { intros r E I. unfold observe. rewrite E. eauto 10. }
  destruct m as [| | | pick timeout | d].
  - apply (same (Current (state (handle w)))); [reflexivity |].
    split; [reflexivity | cbn; lia].
  - apply (same Nothing).
    + cbn [exec_method]. unfold mbind. now rewrite Cancel_terminal.
    + split; [reflexivity | cbn; lia].
  - apply (same (Outcome (result (handle w)) (err (handle w)))).
    + cbn [exec_method]. unfold mbind. now rewrite Wait_terminal.
    + split; [reflexivity | cbn; lia].
  - apply (same (Outcome (result (handle w)) (err (handle w)))).
    + cbn [exec_method]. unfold mbind. now rewrite WaitWithTimeout_terminal.
    + split; [reflexivity | cbn; lia].
  - destruct (exec_method_well_formed (mSleep d) w W)
      as (r & w' & E & W' & Ev & _).
    unfold observe. rewrite E.
    eexists _, w'. split; [reflexivity | split; [assumption | split]].
    + now apply Ev.
    + unfold immediate; cbn [made replied].
      cbn [exec_method] in E. unfold mbind, ret in E.
      destruct (Sleep d w); congruence.
Qed.

Lemma run_terminal (ms : list method) (w : World) :
  well_formed w ->
  IsTerminalState (state (handle w)) = true ->
  exists obs w',
    run ms w = Ret obs w'
    /\ well_formed w'
    /\ handle w' = handle w
    /\ Forall (immediate (handle w)) obs.
Proof.
  revert w; induction ms as [| m ms IH]; intros w W T.
  - exists [], w. cbn. auto.
  - destruct (observe_terminal m w W T) as (o & w1 & E & W1 & H1 & I1).
    assert (T1 : IsTerminalState (state (handle w1)) = true) by now rewrite H1.
    destruct (IH w1 W1 T1) as (obs & w' & E' & W' & H' & I').
    cbn [run]. unfold mbind, ret. rewrite E, E'.
    exists (o :: obs), w'.
    split; [reflexivity | split; [assumption | split; [congruence |]]].
    constructor; [assumption | now rewrite <- H1].
Qed.

Lemma finish_all_terminal (t : TaskStatus) (l : list attempt) :
  IsTerminalState (state t) = true -> finish_all t l = t.
Proof.
  intros T. induction l as [| a l IH]; [reflexivity |].
  cbn. rewrite finish_terminal by assumption. exact IH.
Qed.

(** [Wait] on a fresh handle returns what the runner commits, when the task
    function has taken its time. *)
Lemma Wait_Start (rt : Runtime) (at_ : Z) (task : AsyncFunc) :
  exists w',
    Wait (Start rt at_ task) = Ret (result (handle w'), err (handle w')) w'
    /\ handle w' = runAndTrackTask rt a_running_handle (yields task)
    /\ now w' = at_ + Z.max 0 (duration task)
    /\ runner w' = None.
Proof.
  destruct (Wait_running (Start rt at_ task) (started_Start rt at_ task)
              eq_refl) as (w' & E & _ & R & H & N).
  exists w'. cbn [Start runner handle now g_rt call finish_at] in H, N.
  split; [exact E | split; [exact H | split; [lia | exact R]]].
Qed.

(** * The claims *)

(** C1.  When the task function returns a value together with an error
    whose interface value holds a nil pointer of a pointer-typed error
    implementation, the runner commits [Completed] with that value and a nil
    error, exactly as for a literal nil error: on any handle the two runs
    of the runner agree, on a handle that is still running the handle
    becomes [Completed], and a [Wait] on the handle of [Start] returns the
    value with a nil error. *)
Theorem nil_pointer_error_completes :
  forall (rt : Runtime) (t : TaskStatus) (v : any) (ty msg : string)
         (inner : error),
    let e := dyn_error ty reflect.Pointer None msg inner in
    is_nil_error e = false
    /\ runAndTrackTask rt t (Normal (v, e))
       = runAndTrackTask rt t (Normal (v, nil_error))
    /\ (IsTerminalState (state t) = false ->
        state (runAndTrackTask rt t (Normal (v, e))) = StateCompleted
        /\ result (runAndTrackTask rt t (Normal (v, e))) = v
        /\ err (runAndTrackTask rt t (Normal (v, e))) = nil_error)
    /\ forall (at_ d : Z) (react : option (Z * exec (any * error))),
         exists w',
           Wait (Start rt at_ (mkAsyncFunc d (Normal (v, e)) react))
           = Ret (v, nil_error) w'
           /\ state (handle w') = StateCompleted.
Proof.
  intros rt t v ty msg inner e.
  assert (R : forall t0, runAndTrackTask rt t0 (Normal (v, e))
                         = finish t0 StateCompleted v nil_error).
  { intros t0. subst e. now apply runner_nil_inside. }
  split; [reflexivity | split; [| split]].
  - now rewrite R, runner_nil_error.
  - intros T. rewrite R, finish_running by assumption. auto.
  - intros at_ d react.
    destruct (Wait_Start rt at_ (mkAsyncFunc d (Normal (v, e)) react))
      as (w' & E & H & _).
    cbn [yields] in H. rewrite R in H.
    exists w'. rewrite E, H. auto.
Qed.

Lemma nil_pointer_error_completes_witness :
  IsTerminalState (state a_running_handle) = false
  /\ state (runAndTrackTask a_runtime a_running_handle
              (Normal (StrVal "Done", pointerError None))) = StateCompleted
  /\ result (runAndTrackTask a_runtime a_running_handle
               (Normal (StrVal "Done", pointerError None))) = StrVal "Done"
  /\ err (runAndTrackTask a_runtime a_running_handle
            (Normal (StrVal "Done", pointerError None))) = nil_error.
Proof.
  split; [reflexivity |].
  apply (nil_pointer_error_completes a_runtime a_running_handle
           (StrVal "Done") "*asynctask_test.pointerError"
           "Error from pointer type" nil_error).
  reflexivity.
Defined.

(** Stepping through a run. *)
Lemma run_nil (w : World) : run [] w = Ret [] w.
Proof. reflexivity. Qed.

Lemma run_cons (m : method) (ms : list method) (w w1 w2 : World) (r : reply)
    (os : list observation) :
  exec_method m w = Ret r w1 ->
  run ms w1 = Ret os w2 ->
  run (m :: ms) w = Ret (mkObservation m r (now w1 - now w) :: os) w2.
Proof.
  intros E1 E2. cbn [run]. unfold mbind, observe, ret. now rewrite E1, E2.
Qed.

Lemma exec_mWaitWithTimeout (pick : select_case) (timeout : Z) (w w1 : World)
    (v : any) (e : error) :
  WaitWithTimeout pick timeout w = Ret (v, e) w1 ->
  exec_method (mWaitWithTimeout pick timeout) w = Ret (Outcome v e) w1.
Proof.
  intros E. cbn [exec_method]. unfold mbind, ret. now rewrite E.
Qed.

(** C2, as stated, fails, whatever the task function's duration is read to
    be: on the handle of a task function that returns [(9, nil)] after any
    duration [d], a first [WaitWithTimeout] of 300ms that returns a
    timeout-classified error is never followed by a [WaitWithTimeout] of 2s
    that returns [(9, nil)].  (For [d] of 200ms the first call is no
    timeout; for a longer [d] the second call returns the timeout again.) *)
Lemma timeout_is_never_followed_by_the_result :
  ~ exists (d : Z) (p1 p2 : select_case) (v1 : any) (e1 : error)
           (w1 w2 : World),
      WaitWithTimeout p1 (300 * Millisecond)
        (Start a_runtime 0
           (mkAsyncFunc d (Normal (IntVal 9, nil_error)) None))
      = Ret (v1, e1) w1
      /\ errors_Is e1 ErrTimeout = true
      /\ WaitWithTimeout p2 (2 * Second) w1 = Ret (IntVal 9, nil_error) w2.
Proof.
  intros (d & p1 & p2 & v1 & e1 & w1 & w2 & E1 & I1 & E2).
  destruct (WaitWithTimeout_commits p1 (300 * Millisecond)
              (Start a_runtime 0
                 (mkAsyncFunc d (Normal (IntVal 9, nil_error)) None))
              (mkGoroutine (0 + Z.max 0 d) (Normal (IntVal 9, nil_error))
                 None a_runtime))
    as (w' & E' & _ & T' & _).
  { apply started_Start. }
  { reflexivity. }
  { reflexivity. }
  { discriminate. }
  rewrite E' in E1. inversion E1; subst w1.
  rewrite (WaitWithTimeout_terminal p2 (2 * Second) w' T') in E2.
  inversion E2.
  assert (He : e1 = nil_error) by congruence.
  rewrite He in I1. discriminate I1.
Qed.

(** C2, amended.  In the scenario of a task function that returns
    [(9, nil)]: if it takes 200ms, the first [WaitWithTimeout] of 300ms
    returns [(9, nil)] after 200ms, with no error, and a second one of 2s
    and a third one of 2ns return [(9, nil)] at once; if it takes longer
    than the 300ms of the first wait, the first [WaitWithTimeout] returns
    the timeout error after 300ms and leaves the handle [Canceled], and the
    second and the third return that same timeout error at once, while the
    task function is still running. *)
Theorem timeout_scenario :
  forall (rt : Runtime) (at_ : Z) (react : option (Z * exec (any * error)))
         (p1 p2 p3 : select_case),
    (exists w',
       run [mWaitWithTimeout p1 (300 * Millisecond);
            mWaitWithTimeout p2 (2 * Second);
            mWaitWithTimeout p3 (2 * Nanosecond)]
         (Start rt at_ (nine_after_200ms react))
       = Ret [mkObservation (mWaitWithTimeout p1 (300 * Millisecond))
                (Outcome (IntVal 9) nil_error) (200 * Millisecond);
              mkObservation (mWaitWithTimeout p2 (2 * Second))
                (Outcome (IntVal 9) nil_error) 0;
              mkObservation (mWaitWithTimeout p3 (2 * Nanosecond))
                (Outcome (IntVal 9) nil_error) 0] w'
       /\ state (handle w') = StateCompleted
       /\ now w' = at_ + 200 * Millisecond)
    /\ (forall d : Z,
          300 * Millisecond < d ->
          exists w',
            run [mWaitWithTimeout p1 (300 * Millisecond);
                 mWaitWithTimeout p2 (2 * Second);
                 mWaitWithTimeout p3 (2 * Nanosecond)]
              (Start rt at_
                 (mkAsyncFunc d (Normal (IntVal 9, nil_error)) react))
            = Ret [mkObservation (mWaitWithTimeout p1 (300 * Millisecond))
                     (Outcome nil_any ErrTimeout) (300 * Millisecond);
                   mkObservation (mWaitWithTimeout p2 (2 * Second))
                     (Outcome nil_any ErrTimeout) 0;
                   mkObservation (mWaitWithTimeout p3 (2 * Nanosecond))
                     (Outcome nil_any ErrTimeout) 0] w'
            /\ errors_Is ErrTimeout ErrTimeout = true
            /\ state (handle w') = StateCanceled
            /\ err (handle w') = ErrTimeout
            /\ runner w' <> None).
Proof.
  intros rt at_ react p1 p2 p3. split.
  - set (w0 := Start rt at_ (nine_after_200ms react)).
    destruct (WaitWithTimeout_ch p1 (300 * Millisecond) w0
                (mkGoroutine (at_ + Z.max 0 (200 * Millisecond))
                   (Normal (IntVal 9, nil_error)) react rt))
      as (w1 & E1 & S1 & R1 & H1 & N1).
    { apply started_Start. }
    { reflexivity. }
    { reflexivity. }
    { cbn [w0 Start now finish_at]. unfold Millisecond, Nanosecond. lia. }
    cbn [w0 Start now finish_at handle g_rt call] in H1, N1.
    rewrite runner_nil_error, finish_running in H1 by reflexivity.
    cbn [cancelFunc waitGroup] in H1.
    assert (T1 : IsTerminalState (state (handle w1)) = true)
      by now rewrite H1.
    assert (V1 : result (handle w1) = IntVal 9) by now rewrite H1.
    assert (X1 : err (handle w1) = nil_error) by now rewrite H1.
    rewrite V1, X1 in E1.
    pose proof (WaitWithTimeout_terminal p2 (2 * Second) w1 T1) as E2.
    pose proof (WaitWithTimeout_terminal p3 (2 * Nanosecond) w1 T1) as E3.
    rewrite V1, X1 in E2, E3.
    exists w1. split; [| split].
    + rewrite (run_cons _ _ w0 w1 w1 _ _
                 (exec_mWaitWithTimeout _ _ _ _ _ _ E1)
                 (run_cons _ _ w1 w1 w1 _ _
                    (exec_mWaitWithTimeout _ _ _ _ _ _ E2)
                    (run_cons _ _ w1 w1 w1 _ _
                       (exec_mWaitWithTimeout _ _ _ _ _ _ E3)
                       (run_nil w1)))).
      replace (now w1 - now w0) with (200 * Millisecond)
        by (rewrite N1; cbn [w0 Start now]; unfold Millisecond, Nanosecond;
            lia).
      now rewrite Z.sub_diag.
    + now rewrite H1.
    + rewrite N1. unfold Millisecond, Nanosecond. lia.
  - intros d L.
    set (w0 := Start rt at_
                 (mkAsyncFunc d (Normal (IntVal 9, nil_error)) react)).
    set (g := mkGoroutine (at_ + Z.max 0 d) (Normal (IntVal 9, nil_error))
                react rt).
    assert (L0 : now w0 + Z.max 0 (300 * Millisecond) < finish_at g).
    { cbn [w0 g Start now finish_at]. unfold Millisecond, Nanosecond in *.
      lia. }
    pose proof (WaitWithTimeout_timer p1 (300 * Millisecond) w0 g
                  (started_Start _ _ _) eq_refl eq_refl L0) as E1.
    set (w1 := set_parked _ _) in E1.
    assert (T1 : IsTerminalState (state (handle w1)) = true) by reflexivity.
    pose proof (WaitWithTimeout_terminal p2 (2 * Second) w1 T1) as E2.
    pose proof (WaitWithTimeout_terminal p3 (2 * Nanosecond) w1 T1) as E3.
    change (result (handle w1)) with nil_any in E2, E3.
    change (err (handle w1)) with ErrTimeout in E2, E3.
    exists w1. split; [| split; [reflexivity | split; [reflexivity |]]].
    + rewrite (run_cons _ _ w0 w1 w1 _ _
                 (exec_mWaitWithTimeout _ _ _ _ _ _ E1)
                 (run_cons _ _ w1 w1 w1 _ _
                    (exec_mWaitWithTimeout _ _ _ _ _ _ E2)
                    (run_cons _ _ w1 w1 w1 _ _
                       (exec_mWaitWithTimeout _ _ _ _ _ _ E3)
                       (run_nil w1)))).
      replace (now w1 - now w0) with (300 * Millisecond)
        by (cbn [w1 w0 set_parked set_handle set_now Start now];
            unfold Millisecond, Nanosecond; lia).
      now rewrite Z.sub_diag.
    + split; [reflexivity | discriminate].
Qed.

Lemma timeout_scenario_witness :
  300 * Millisecond < 2 * Second
  /\ exists w',
       run [mWaitWithTimeout case_ch (300 * Millisecond);
            mWaitWithTimeout case_ch (2 * Second);
            mWaitWithTimeout case_ch (2 * Nanosecond)]
         (Start a_runtime 0 nine_after_2s)
       = Ret [mkObservation (mWaitWithTimeout case_ch (300 * Millisecond))
                (Outcome nil_any ErrTimeout) (300 * Millisecond);
              mkObservation (mWaitWithTimeout case_ch (2 * Second))
                (Outcome nil_any ErrTimeout) 0;
              mkObservation (mWaitWithTimeout case_ch (2 * Nanosecond))
                (Outcome nil_any ErrTimeout) 0] w'
       /\ state (handle w') = StateCanceled.
Proof.
  split; [reflexivity |].
  destruct (proj2 (timeout_scenario a_runtime 0 None case_ch case_ch case_ch)
              (2 * Second) eq_refl)
    as (w' & E & _ & St & _).
  exists w'. split; [exact E | exact St].
Defined.

(** C3.  When the deadline of [WaitWithTimeout] comes before the task
    function returns, the call returns the timeout sentinel and leaves the
    handle [Canceled] with that sentinel, while the task function keeps
    running and its context is not canceled; from then on every [Wait] and
    every [WaitWithTimeout], in any sequence of calls and however long the
    callers sleep in between, returns at once with that same timeout error
    and the handle stays as it is. *)
Theorem timed_out_wait_spends_the_handle :
  forall (pick : select_case) (timeout : Z) (w : World) (g : Goroutine),
    started w ->
    IsTerminalState (state (handle w)) = false ->
    runner w = Some g ->
    now w + Z.max 0 timeout < finish_at g ->
    exists w',
      WaitWithTimeout pick timeout w = Ret (nil_any, ErrTimeout) w'
      /\ handle w'
         = mkTaskStatus StateCanceled nil_any ErrTimeout
             (cancelFunc (handle w)) (waitGroup (handle w))
      /\ errors_Is (err (handle w')) ErrTimeout = true
      /\ now w' = now w + Z.max 0 timeout
      /\ runner w' = Some g
      /\ ctx_done w' = ctx_done w
      /\ cancel_calls w' = cancel_calls w
      /\ forall ms : list method,
           exists obs w'',
             run ms w' = Ret obs w''
             /\ handle w'' = handle w'
             /\ Forall
                  (fun o =>
                     match made o with
                     | mWait | mWaitWithTimeout _ _ =>
                         replied o = Outcome nil_any ErrTimeout /\ took o = 0
                     | _ => True
                     end) obs.
Proof.
  intros pick timeout w g Hs T R L.
  rewrite (WaitWithTimeout_timer pick timeout w g Hs T R L).
  eexists. split; [reflexivity |].
  cbn [set_parked set_handle set_now handle now runner ctx_done cancel_calls
       err].
  split; [reflexivity | split; [reflexivity | split; [reflexivity |]]].
  split; [assumption | split; [reflexivity | split; [reflexivity |]]].
  intros ms.
  match goal with |- context [run ms ?x] => set (w' := x) end.
  assert (W' : well_formed w').
  { left. destruct Hs as (C & G & N).
    unfold started, w'; cbn [set_parked set_handle set_now handle wg runner
                             cancelFunc waitGroup].
    auto. }
  destruct (run_terminal ms w' W' eq_refl) as (obs & w'' & E & _ & H & I).
  exists obs, w''. split; [exact E | split; [exact H |]].
  revert I. apply Forall_impl. intros o. unfold immediate.
  destruct (made o); auto.
Qed.

Lemma timed_out_wait_spends_the_handle_witness :
  started (Start a_runtime 0 nine_after_2s)
  /\ IsTerminalState (state (handle (Start a_runtime 0 nine_after_2s))) = false
  /\ runner (Start a_runtime 0 nine_after_2s)
     = Some (mkGoroutine (2 * Second) (Normal (IntVal 9, nil_error)) None
               a_runtime)
  /\ now (Start a_runtime 0 nine_after_2s) + Z.max 0 (300 * Millisecond)
     < 2 * Second
  /\ exists w',
       WaitWithTimeout case_ch (300 * Millisecond)
         (Start a_runtime 0 nine_after_2s) = Ret (nil_any, ErrTimeout) w'
       /\ exists obs w'',
            run [mWaitWithTimeout case_ch (2 * Second); mSleep (3 * Second);
                 mWait] w' = Ret obs w''
            /\ state (handle w'') = StateCanceled
            /\ err (handle w'') = ErrTimeout.
Proof.
  split; [apply started_Start |].
  split; [reflexivity |].
  split; [reflexivity |].
  split; [vm_compute; reflexivity |].
  destruct (timed_out_wait_spends_the_handle case_ch (300 * Millisecond)
              (Start a_runtime 0 nine_after_2s)
              (mkGoroutine (2 * Second) (Normal (IntVal 9, nil_error)) None
                 a_runtime)
              (started_Start a_runtime 0 nine_after_2s) eq_refl eq_refl
              eq_refl)
    as (w' & E & H & _ & _ & _ & _ & _ & F).
  exists w'. split; [exact E |].
  destruct (F [mWaitWithTimeout case_ch (2 * Second); mSleep (3 * Second);
               mWait]) as (obs & w'' & E' & H' & _).
  exists obs, w''. split; [exact E' |].
  rewrite H', H. split; reflexivity.
Defined.

(** C4, at the input on which the program departs from it.  When the task
    function returns a value together with an error of a struct type,
    [reflect.ValueOf(err).IsNil()] panics; the deferred closure recovers
    that panic and commits [Failed] with the error made for panics and with
    a nil result.  The error of the task function is not passed through. *)
Theorem struct_error_is_lost :
  forall (rt : Runtime) (at_ d : Z) (v : any)
         (react : option (Z * exec (any * error))),
  exists w',
    Wait (Start rt at_ (mkAsyncFunc d (Normal (v, structError)) react))
    = Ret (nil_any,
           panic_error rt
             (ErrVal (ValueError (new_ValueError rt) "reflect.Value.IsNil"
                        reflect.Struct))) w'
    /\ state (handle w') = StateFailed
    /\ err (handle w') <> structError
    /\ errors_Is (err (handle w')) ErrPanic = true
    /\ Error (err (handle w'))
       = "Panic cought: reflect: call of reflect.Value.IsNil on struct Value, StackTrace: "
         ++ debug_Stack rt ++ ", panic".
Proof.
  intros rt at_ d v react.
  destruct (Wait_Start rt at_ (mkAsyncFunc d (Normal (v, structError)) react))
    as (w' & E & H & _).
  cbn [yields] in H. unfold structError in H.
  rewrite runner_IsNil_panics, finish_running in H by reflexivity.
  exists w'. rewrite E, H. cbn [result err state].
  split; [reflexivity | split; [reflexivity | split; [discriminate |]]].
  split; reflexivity.
Qed.

(** The part of C4 that the program does fulfil: an error of a kind that
    has a nil value and whose data pointer is not nil is passed through. *)
Lemma pointer_error_is_passed_through (rt : Runtime) (t : TaskStatus)
    (v : any) (ty : string) (k : reflect.Kind) (a : positive) (msg : string)
    (inner : error) :
  nilable k = true ->
  IsTerminalState (state t) = false ->
  runAndTrackTask rt t (Normal (v, dyn_error ty k (Some a) msg inner))
  = mkTaskStatus StateFailed v (dyn_error ty k (Some a) msg inner)
      (cancelFunc t) (waitGroup t).
Proof.
  intros Hk T. rewrite runner_error by assumption.
  now apply finish_running.
Qed.





(** C6.  Once the handle is terminal, every later finalize attempt leaves
    state, result and error as they are: [finish] itself, the runner when
    the task function returns or panics, [Cancel], and [WaitWithTimeout]
    (which does not reach its timer); so does every sequence of calls.  Of
    several attempts in a row on a running handle only the first takes
    effect, and in any run of calls the handle changes at most once. *)
Theorem terminal_handle_is_frozen :
  (forall (t : TaskStatus) (s : State) (r : any) (e : error),
      IsTerminalState (state t) = true -> finish t s r e = t)
  /\ (forall (rt : Runtime) (t : TaskStatus) (c : exec (any * error)),
        IsTerminalState (state t) = true -> runAndTrackTask rt t c = t)
  /\ (forall w : World,
        IsTerminalState (state (handle w)) = true -> Cancel w = Ret tt w)
  /\ (forall (pick : select_case) (timeout : Z) (w : World),
        IsTerminalState (state (handle w)) = true ->
        WaitWithTimeout pick timeout w
        = Ret (result (handle w), err (handle w)) w)
  /\ (forall (t : TaskStatus) (a : attempt) (l : list attempt),
        IsTerminalState (state t) = false ->
        IsTerminalState (fst (fst a)) = true ->
        finish_all t (a :: l) = finish t (fst (fst a)) (snd (fst a)) (snd a))
  /\ (forall (w : World) (ms1 ms2 : list method),
        well_formed w ->
        exists obs1 w1 obs2 w2,
          run ms1 w = Ret obs1 w1
          /\ run ms2 w1 = Ret obs2 w2
          /\ (IsTerminalState (state (handle w)) = true ->
              handle w1 = handle w)
          /\ (handle w1 <> handle w -> handle w2 = handle w1)).
Proof.
  split; [exact finish_terminal |].
  split; [exact runner_frozen |].
  split; [exact Cancel_terminal |].
  split; [exact WaitWithTimeout_terminal |].
  split.
  - intros t a l T Ta. unfold finish_all. cbn [fold_left].
    apply finish_all_terminal.
    rewrite finish_running by assumption. exact Ta.
  - intros w ms1 ms2 W.
    destruct (run_well_formed ms1 w W) as (obs1 & w1 & E1 & W1 & Ev1 & _).
    destruct (run_well_formed ms2 w1 W1) as (obs2 & w2 & E2 & _ & Ev2 & _).
    exists obs1, w1, obs2, w2.
    split; [exact E1 | split; [exact E2 | split]].
    + apply Ev1.
    + intros Hne. destruct Ev1 as (_ & _ & _ & _ & [Heq | T1]).
      * contradiction.
      * now apply Ev2.
Qed.

Lemma terminal_handle_is_frozen_witness :
  IsTerminalState (state (handle (completed_world 0))) = true
  /\ Cancel (completed_world 0) = Ret tt (completed_world 0)
  /\ IsTerminalState (state a_running_handle) = false
  /\ IsTerminalState (fst (fst (StateCanceled, nil_any, ErrTimeout))) = true
  /\ finish_all a_running_handle
       [(StateCanceled, nil_any, ErrTimeout);
        (StateCompleted, IntVal 9, nil_error)]
     = finish a_running_handle StateCanceled nil_any ErrTimeout
  /\ well_formed (Start a_runtime 0 nine_after_2s)
  /\ exists obs1 w1 obs2 w2,
       run [mWaitWithTimeout case_ch (300 * Millisecond)]
         (Start a_runtime 0 nine_after_2s) = Ret obs1 w1
       /\ run [mSleep (3 * Second); mWait; mCancel] w1 = Ret obs2 w2
       /\ handle w1 <> handle (Start a_runtime 0 nine_after_2s)
       /\ handle w2 = handle w1.
Proof.
  destruct terminal_handle_is_frozen as (_ & _ & C & _ & A & R).
  split; [reflexivity |].
  split; [exact (C (completed_world 0) eq_refl) |].
  split; [reflexivity |].
  split; [reflexivity |].
  split.
  { exact (A a_running_handle (StateCanceled, nil_any, ErrTimeout)
             [(StateCompleted, IntVal 9, nil_error)] eq_refl eq_refl). }
  split; [left; apply started_Start |].
  destruct (R (Start a_runtime 0 nine_after_2s)
              [mWaitWithTimeout case_ch (300 * Millisecond)]
              [mSleep (3 * Second); mWait; mCancel]
              (or_introl (started_Start a_runtime 0 nine_after_2s)))
    as (obs1 & w1 & obs2 & w2 & E1 & E2 & _ & F).
  exists obs1, w1, obs2, w2.
  assert (Hne : handle w1 <> handle (Start a_runtime 0 nine_after_2s)).
  { vm_compute in E1. inversion E1. discriminate. }
  auto.
Defined.

(** C7.  On the handle of [Start] and on the handle of
    [NewCompletedTask], after any sequence of calls of [State], [Cancel],
    [Wait] and [WaitWithTimeout], with any pauses in between (during which
    the runner may finish, whatever the task function yields): every call
    has returned, and if the state is [Completed] the error is nil, if it
    is [Failed] or [Canceled] the error is not nil. *)
Theorem state_and_error_agree :
  (forall (rt : Runtime) (at_ : Z) (task : AsyncFunc) (ms : list method),
      exists obs w',
        run ms (Start rt at_ task) = Ret obs w'
        /\ (state (handle w') = StateCompleted -> err (handle w') = nil_error)
        /\ (state (handle w') = StateFailed
            \/ state (handle w') = StateCanceled ->
            err (handle w') <> nil_error))
  /\ (forall (at_ : Z) (ms : list method),
        exists obs w',
          run ms (completed_world at_) = Ret obs w'
          /\ (state (handle w') = StateCompleted ->
              err (handle w') = nil_error)
          /\ (state (handle w') = StateFailed
              \/ state (handle w') = StateCanceled ->
              err (handle w') <> nil_error)).
Proof.
  split.
  - intros rt at_ task ms.
    destruct (run_well_formed ms (Start rt at_ task))
      as (obs & w' & E & _ & Ev & _).
    { left. apply started_Start. }
    exists obs, w'. split; [exact E |].
    apply Ev. split; cbn; intros H; [discriminate | destruct H; discriminate].
  - intros at_ ms.
    destruct (run_well_formed ms (completed_world at_))
      as (obs & w' & E & _ & Ev & _).
    { right. apply presatisfied_completed_world. }
    exists obs, w'. split; [exact E |].
    apply Ev. split; cbn; intros H; [reflexivity | destruct H; discriminate].
Qed.

Lemma state_and_error_agree_witness :
  exists obs w',
    run [mSleep (100 * Millisecond); mCancel; mWait]
      (Start a_runtime 0 nine_after_2s) = Ret obs w'
    /\ state (handle w') = StateCanceled
    /\ err (handle w') <> nil_error.
Proof.
  destruct (proj1 state_and_error_agree a_runtime 0 nine_after_2s
              [mSleep (100 * Millisecond); mCancel; mWait])
    as (obs & w' & E & _ & F).
  exists obs, w'.
  assert (St : state (handle w') = StateCanceled).
  { vm_compute in E. inversion E. reflexivity. }
  split; [exact E | split; [exact St | apply F; right; exact St]].
Defined.

(** C8.  On the handle of [NewCompletedTask], whose cancel function and
    wait group are nil: [Cancel] returns and changes nothing, [Wait] and
    [WaitWithTimeout] with any duration return [(nil, nil)] in no time, and
    so does every sequence of such calls.  None of these calls panics or
    blocks: a use of the nil cancel function or of the nil wait group would
    be a [Crash]. *)
Theorem completed_task_is_inert :
  forall at_ : Z,
    handle (completed_world at_)
    = mkTaskStatus StateCompleted nil_any nil_error None None
    /\ Cancel (completed_world at_) = Ret tt (completed_world at_)
    /\ Wait (completed_world at_)
       = Ret (nil_any, nil_error) (completed_world at_)
    /\ (forall (pick : select_case) (timeout : Z),
          WaitWithTimeout pick timeout (completed_world at_)
          = Ret (nil_any, nil_error) (completed_world at_))
    /\ forall ms : list method,
         exists obs w',
           run ms (completed_world at_) = Ret obs w'
           /\ handle w' = NewCompletedTask
           /\ Forall (immediate NewCompletedTask) obs.
Proof.
  intros at_.
  split; [reflexivity | split; [reflexivity | split; [reflexivity |]]].
  split; [reflexivity |].
  intros ms.
  destruct (run_terminal ms (completed_world at_))
    as (obs & w' & E & _ & H & I).
  { right. apply presatisfied_completed_world. }
  { reflexivity. }
  exists obs, w'. auto.
Qed.

(** What the nil references would do on a handle that is not terminal: the
    guards of C8 are what keeps the calls from them. *)
Lemma nil_references_are_guarded (w : World) :
  IsTerminalState (state (handle w)) = false ->
  (cancelFunc (handle w) = None -> Cancel w = Crash nil_dereference)
  /\ (waitGroup (handle w) = None ->
      Wait w = Crash nil_dereference
      /\ forall pick timeout,
           WaitWithTimeout pick timeout w = Crash nil_dereference).
Proof.
  intros T. split.
  - intros C. unfold Cancel. rewrite T. cbn [negb].
    unfold mbind, call_cancelFunc. now rewrite C.
  - intros G. split.
    + unfold Wait. now rewrite T, G.
    + intros pick timeout. unfold WaitWithTimeout. now rewrite T, G.
Qed.

(** C9.  [Cancel] on a handle that is not terminal invokes the cancel
    function (the context is done, one more invocation is counted) and
    leaves the handle [Canceled] with [ErrCanceled] and a nil result, in no
    time and with the goroutine of the task function still running and the
    wait group still counting it; [Cancel] on a terminal handle changes
    nothing. *)
Theorem Cancel_cancels_at_once :
  (forall w : World,
      cancelFunc (handle w) = Some cancel_ctx ->
      IsTerminalState (state (handle w)) = false ->
      exists w',
        Cancel w = Ret tt w'
        /\ handle w'
           = mkTaskStatus StateCanceled nil_any ErrCanceled
               (cancelFunc (handle w)) (waitGroup (handle w))
        /\ errors_Is (err (handle w')) ErrCanceled = true
        /\ ctx_done w' = true
        /\ cancel_calls w' = S (cancel_calls w)
        /\ now w' = now w
        /\ wg w' = wg w
        /\ (forall g, runner w = Some g -> exists g', runner w' = Some g'))
  /\ (forall w : World,
        IsTerminalState (state (handle w)) = true -> Cancel w = Ret tt w).
Proof.
  split; [| exact Cancel_terminal].
  intros w C T. rewrite (Cancel_running w C T).
  eexists. split; [reflexivity |].
  cbn [set_handle handle err ctx_done cancel_calls now wg runner cancel].
  repeat (split; [reflexivity |]).
  intros g R. rewrite R.
  destruct (ctx_done w); [eauto |].
  destruct (reacts g) as [[d o] |]; eauto.
Qed.

Lemma Cancel_cancels_at_once_witness :
  cancelFunc (handle (Start a_runtime 0 nine_after_2s)) = Some cancel_ctx
  /\ IsTerminalState (state (handle (Start a_runtime 0 nine_after_2s))) = false
  /\ (exists w',
        Cancel (Start a_runtime 0 nine_after_2s) = Ret tt w'
        /\ state (handle w') = StateCanceled
        /\ err (handle w') = ErrCanceled
        /\ now w' = 0
        /\ exists g', runner w' = Some g')
  /\ IsTerminalState (state (handle (completed_world 0))) = true
  /\ Cancel (completed_world 0) = Ret tt (completed_world 0).
Proof.
  destruct Cancel_cancels_at_once as (Run & Term).
  split; [reflexivity | split; [reflexivity | split]].
  - destruct (Run (Start a_runtime 0 nine_after_2s) eq_refl eq_refl)
      as (w' & E & H & _ & _ & _ & N & _ & G).
    exists w'. rewrite H. cbn [state err].
    split; [exact E | split; [reflexivity | split; [reflexivity |]]].
    split; [exact N | exact (G _ eq_refl)].
  - split; [reflexivity | exact (Term (completed_world 0) eq_refl)].
Defined.

(** C10.  [IsTerminalState] is true of every [State] other than the
    string ["Running"], the empty string (the zero value) included; and on
    a handle whose state is anything but ["Running"], [finish] and
    [Cancel] do nothing and [Wait] and [WaitWithTimeout] return the stored
    result and error at once. *)
Theorem everything_but_Running_is_terminal :
  (forall s : State, IsTerminalState s = true <-> s <> "Running")
  /\ IsTerminalState "" = true
  /\ (forall (t : TaskStatus) (s : State) (r : any) (e : error),
        state t <> "Running" -> finish t s r e = t)
  /\ (forall w : World,
        state (handle w) <> "Running" ->
        Cancel w = Ret tt w
        /\ Wait w = Ret (result (handle w), err (handle w)) w
        /\ forall (pick : select_case) (timeout : Z),
             WaitWithTimeout pick timeout w
             = Ret (result (handle w), err (handle w)) w).
Proof.
  split; [exact IsTerminalState_true_iff |].
  split; [reflexivity |].
  split.
  - intros t s r e H. apply finish_terminal.
    now apply IsTerminalState_true_iff.
  - intros w H. apply IsTerminalState_true_iff in H.
    split; [now apply Cancel_terminal |].
    split; [now apply Wait_terminal |].
    intros pick timeout. now apply WaitWithTimeout_terminal.
Qed.

Lemma everything_but_Running_is_terminal_witness :
  state (handle zero_world) <> "Running"
  /\ IsTerminalState "Done" = true
  /\ finish (handle zero_world) StateFailed (IntVal 1) ErrPanic
     = handle zero_world
  /\ Cancel zero_world = Ret tt zero_world
  /\ Wait zero_world = Ret (nil_any, nil_error) zero_world
  /\ WaitWithTimeout case_timer 0 zero_world
     = Ret (nil_any, nil_error) zero_world.
Proof.
  destruct everything_but_Running_is_terminal as (Iff & _ & Fin & Meth).
  assert (Hne : state (handle zero_world) <> "Running") by discriminate.
  split; [exact Hne |].
  split; [apply Iff; discriminate |].
  split; [exact (Fin _ _ _ _ Hne) |].
  destruct (Meth zero_world Hne) as (C & W & T).
  split; [exact C | split; [exact W | exact (T case_timer 0)]].
Defined.

(** * Further properties of the program *)

(** ** What a goroutine event does to the world *)

Lemma wake_effect (n : nat) (w : World) :
  started w ->
  exists w', wake n w = Ret tt w'
    /\ started w'
    /\ handle w' = handle w /\ now w' = now w /\ parked w' = parked w
    /\ wg w' = wg w
    /\ cancel_calls w' = (n + cancel_calls w)%nat
    /\ ctx_done w' = match n with O => ctx_done w | S _ => true end
    /\ (runner w = None -> runner w' = None).
Proof.
  revert w; induction n as [| n IH]; intros w Hs.
  - exists w. cbn. auto 12.
  - cbn [wake]. unfold mbind. rewrite call_cancelFunc_started by assumption.
    destruct (IH (cancel w) (cancel_started w Hs))
      as (w' & E & S' & H' & N' & P' & G' & C' & D' & R').
    exists w'. rewrite E.
    split; [reflexivity | split; [assumption |]].
    rewrite H', N', P', G', C', D'.
    cbn [cancel handle now parked wg cancel_calls ctx_done].
    repeat (split; [reflexivity || lia |]).
    split; [now destruct n |].
    intros R. apply R'. now apply cancel_runner_None.
Qed.

Lemma deliver_effect (g : Goroutine) (w : World) :
  started w -> runner w = Some g ->
  exists w', deliver g w = Ret tt w'
    /\ started w'
    /\ handle w' = runAndTrackTask (g_rt g) (handle w) (call g)
    /\ now w' = now w
    /\ runner w' = None
    /\ wg w' = 0%nat
    /\ parked w' = 0%nat
    /\ cancel_calls w' = (parked w + cancel_calls w)%nat
    /\ ctx_done w' = match parked w with O => ctx_done w | S _ => true end.
Proof.
  intros Hs R. pose proof Hs as (C & G & N). rewrite R in N.
  unfold deliver. rewrite N.
  set (w1 := mkWorld _ _ _ _ _ _ _).
  assert (S1 : started w1).
  { destruct (evolves_runner (g_rt g) (handle w) (call g)) as (C' & G' & _).
    unfold started, w1; cbn [handle wg runner].
    repeat split; congruence. }
  destruct (wake_effect (parked w1) w1 S1)
    as (w' & E & S' & H' & N' & P' & G' & C' & D' & R').
  unfold mbind. rewrite E. unfold modify.
  exists (set_parked 0 w').
  split; [reflexivity |].
  split; [exact S' |].
  cbn [set_parked handle now runner wg parked cancel_calls ctx_done].
  rewrite H', N', G', C', D'.
  cbn [w1 handle now wg parked cancel_calls ctx_done].
  repeat (split; [reflexivity |]).
  split; [now apply R' |].
  repeat (split; [reflexivity |]). reflexivity.
Qed.

(** A blocking [Wait], in full: the world it leaves behind. *)
Lemma Wait_running_effect (w : World) (g : Goroutine) :
  started w ->
  IsTerminalState (state (handle w)) = false ->
  runner w = Some g ->
  exists w',
    Wait w = Ret (result (handle w'), err (handle w')) w'
    /\ started w'
    /\ handle w' = runAndTrackTask (g_rt g) (handle w) (call g)
    /\ now w' = Z.max (now w) (finish_at g)
    /\ runner w' = None
    /\ wg w' = 0%nat
    /\ parked w' = 0%nat
    /\ ctx_done w' = true
    /\ cancel_calls w' = S (parked w + cancel_calls w).
Proof.
  intros Hs T R. unfold Wait. rewrite T.
  replace (waitGroup (handle w)) with (Some wg_ref) by (symmetry; apply Hs).
  rewrite (wg_zero_at_started w Hs), R.
  unfold mbind at 1. unfold advance_to.
  set (w0 := set_now _ w).
  assert (S0 : started w0) by exact Hs.
  change (runner w0) with (runner w). rewrite R.
  replace (finish_at g <=? now w0) with true
    by (symmetry; apply Z.leb_le; cbn [w0 set_now now]; lia).
  destruct (deliver_effect g w0 S0 R)
    as (w1 & E & S1 & H1 & N1 & R1 & G1 & P1 & C1 & D1).
  rewrite E. unfold mbind at 1. unfold result_and_err at 1.
  unfold mbind. rewrite (call_cancelFunc_started w1 S1). unfold ret.
  exists (cancel w1). rewrite cancel_handle.
  split; [reflexivity | split; [now apply cancel_started |]].
  split; [exact H1 |].
  split; [rewrite cancel_now, N1; cbn [w0 set_now now]; lia |].
  split; [now apply cancel_runner_None |].
  cbn [cancel wg parked ctx_done cancel_calls].
  rewrite G1, P1, C1. cbn [w0 set_now parked cancel_calls].
  repeat (split; [reflexivity |]). reflexivity.
Qed.

Lemma Wait_Start_effect (rt : Runtime) (at_ : Z) (task : AsyncFunc) :
  exists w',
    Wait (Start rt at_ task) = Ret (result (handle w'), err (handle w')) w'
    /\ started w'
    /\ handle w' = runAndTrackTask rt a_running_handle (yields task)
    /\ now w' = at_ + Z.max 0 (duration task)
    /\ runner w' = None
    /\ wg w' = 0%nat
    /\ parked w' = 0%nat
    /\ ctx_done w' = true
    /\ cancel_calls w' = 1%nat.
Proof.
  destruct (Wait_running_effect (Start rt at_ task)
              (mkGoroutine (at_ + Z.max 0 (duration task)) (yields task)
                 (on_cancel task) rt)
              (started_Start rt at_ task) eq_refl eq_refl)
    as (w' & E & S' & H & N & R & G & P & D & C).
  exists w'. cbn [Start now finish_at parked cancel_calls] in N, C.
  split; [exact E | split; [exact S' | split; [exact H |]]].
  split; [lia |]. auto 6.
Qed.

(** X1.  [Start] and then [Wait], when the task function takes some time
    [d > 0] and returns a value and a nil error: [Wait] blocks until the
    function has taken its time and returns that value and a nil error; the
    handle is [Completed], the wait group is at zero, and the deferred call
    in [Wait] has canceled the derived context, once. *)
Theorem Wait_returns_the_value :
  forall (rt : Runtime) (at_ d : Z) (v : any)
         (react : option (Z * exec (any * error))),
    0 < d ->
    exists w',
      Wait (Start rt at_ (mkAsyncFunc d (Normal (v, nil_error)) react))
      = Ret (v, nil_error) w'
      /\ state (handle w') = StateCompleted
      /\ now w' = at_ + d
      /\ runner w' = None
      /\ wg w' = 0%nat
      /\ ctx_done w' = true
      /\ cancel_calls w' = 1%nat.
Proof.
  intros rt at_ d v react Hd.
  destruct (Wait_Start_effect rt at_
              (mkAsyncFunc d (Normal (v, nil_error)) react))
    as (w' & E & _ & H & N & R & G & _ & D & C).
  cbn [yields duration] in H, N.
  rewrite runner_nil_error, finish_running in H by reflexivity.
  exists w'. rewrite E, H. cbn [result err state].
  split; [reflexivity | split; [reflexivity | split; [lia |]]].
  auto.
Qed.

Lemma Wait_returns_the_value_witness :
  0 < 200 * Millisecond
  /\ exists w',
       Wait (Start a_runtime 0 (nine_after_200ms None))
       = Ret (IntVal 9, nil_error) w'
       /\ state (handle w') = StateCompleted
       /\ now w' = 0 + 200 * Millisecond
       /\ ctx_done w' = true.
Proof.
  split; [reflexivity |].
  destruct (Wait_returns_the_value a_runtime 0 (200 * Millisecond) (IntVal 9)
              None eq_refl)
    as (w' & E & St & N & _ & _ & D & _).
  exists w'. auto.
Defined.

(** X2.  When the task function returns a value together with an error of
    a kind that has a nil value (a pointer, as [errors.New] gives, or a
    map, slice, func or chan) whose data pointer is not nil, [Wait] on the
    handle of [Start] returns that value and exactly that error, and the
    handle is [Failed]. *)
Theorem error_is_passed_through_with_value :
  forall (rt : Runtime) (at_ d : Z) (v : any)
         (react : option (Z * exec (any * error)))
         (ty : string) (k : reflect.Kind) (a : positive) (msg : string)
         (inner : error),
    nilable k = true ->
    exists w',
      Wait (Start rt at_
              (mkAsyncFunc d
                 (Normal (v, dyn_error ty k (Some a) msg inner)) react))
      = Ret (v, dyn_error ty k (Some a) msg inner) w'
      /\ state (handle w') = StateFailed
      /\ now w' = at_ + Z.max 0 d.
Proof.
  intros rt at_ d v react ty k a msg inner Hk.
  destruct (Wait_Start_effect rt at_
              (mkAsyncFunc d
                 (Normal (v, dyn_error ty k (Some a) msg inner)) react))
    as (w' & E & _ & H & N & _).
  cbn [yields duration] in H, N.
  rewrite pointer_error_is_passed_through in H by (assumption || reflexivity).
  exists w'. rewrite E, H. auto.
Qed.

Lemma error_is_passed_through_with_value_witness :
  nilable reflect.Pointer = true
  /\ exists w',
       Wait (Start a_runtime 0
               (mkAsyncFunc (100 * Millisecond)
                  (Normal (StrVal "Done", pointerError (Some 9%positive)))
                  None))
       = Ret (StrVal "Done", pointerError (Some 9%positive)) w'
       /\ state (handle w') = StateFailed
       /\ now w' = 0 + Z.max 0 (100 * Millisecond).
Proof.
  split; [reflexivity |].
  apply (error_is_passed_through_with_value a_runtime 0 (100 * Millisecond)
           (StrVal "Done") None "*asynctask_test.pointerError"
           reflect.Pointer 9 "Error from pointer type" nil_error).
  reflexivity.
Defined.

Lemma errors_New_is_no_sentinel (a : positive) (s : string) :
  a <> 1%positive -> a <> 2%positive -> a <> 3%positive ->
  errors_Is (errors_New a s) ErrPanic = false
  /\ errors_Is (errors_New a s) ErrTimeout = false
  /\ errors_Is (errors_New a s) ErrCanceled = false.
Proof.
  intros H1 H2 H3.
  apply Pos.eqb_neq in H1. apply Pos.eqb_neq in H2. apply Pos.eqb_neq in H3.
  split; [| split].
  - change (errors_Is (errors_New a s) ErrPanic)
      with (if true && (a =? 1)%positive && (s =? "panic")%string && true
            then true else false).
    now rewrite H1.
  - change (errors_Is (errors_New a s) ErrTimeout)
      with (if true && (a =? 2)%positive && (s =? "timeout")%string && true
            then true else false).
    now rewrite H2.
  - change (errors_Is (errors_New a s) ErrCanceled)
      with (if true && (a =? 3)%positive && (s =? "canceled")%string && true
            then true else false).
    now rewrite H3.
Qed.

(** X3.  The task of [getErrorTask(errorString, sleepDuration)] under a
    [WaitWithTimeout] whose timeout is longer than the sleep: the call
    returns, after the sleep, a nil result and the error of [errors.New],
    whose message is [errorString] and which [errors.Is] classifies neither
    as a panic nor as a timeout nor as a cancellation (its allocation is
    none of the three sentinels); the handle is [Failed]. *)
Theorem getErrorTask_fails_with_its_error :
  forall (rt : Runtime) (at_ : Z) (a : positive) (errorString : string)
         (sleepDuration timeout : Z) (pick : select_case),
    a <> 1%positive -> a <> 2%positive -> a <> 3%positive ->
    Z.max 0 sleepDuration < timeout ->
    exists (e : error) (w' : World),
      WaitWithTimeout pick timeout
        (Start rt at_ (getErrorTask a errorString sleepDuration))
      = Ret (nil_any, e) w'
      /\ e <> nil_error
      /\ Error e = errorString
      /\ errors_Is e ErrPanic = false
      /\ errors_Is e ErrTimeout = false
      /\ errors_Is e ErrCanceled = false
      /\ state (handle w') = StateFailed
      /\ now w' = at_ + Z.max 0 sleepDuration.
Proof.
  intros rt at_ a errorString sleepDuration timeout pick H1 H2 H3 L.
  destruct (WaitWithTimeout_ch pick timeout
              (Start rt at_ (getErrorTask a errorString sleepDuration))
              (mkGoroutine (at_ + Z.max 0 sleepDuration)
                 (Normal (nil_any, errors_New a errorString)) None rt))
    as (w' & E & _ & _ & H & N).
  { apply started_Start. }
  { reflexivity. }
  { reflexivity. }
  { cbn [Start now finish_at]. lia. }
  cbn [Start handle g_rt call now finish_at] in H, N.
  unfold errors_New in H.
  rewrite pointer_error_is_passed_through in H by reflexivity.
  fold (errors_New a errorString) in H.
  destruct (errors_New_is_no_sentinel a errorString H1 H2 H3)
    as (P & T & C).
  exists (errors_New a errorString), w'. rewrite E, H.
  cbn [result err state].
  split; [reflexivity | split; [discriminate | split; [reflexivity |]]].
  split; [exact P | split; [exact T | split; [exact C |]]].
  split; [reflexivity | lia].
Qed.

Lemma getErrorTask_fails_with_its_error_witness :
  100%positive <> 1%positive /\ 100%positive <> 2%positive
  /\ 100%positive <> 3%positive
  /\ Z.max 0 (200 * Millisecond) < 300 * Millisecond
  /\ exists (e : error) (w' : World),
       WaitWithTimeout case_ch (300 * Millisecond)
         (Start a_runtime 0
            (getErrorTask 100 "dummy error" (200 * Millisecond)))
       = Ret (nil_any, e) w'
       /\ Error e = "dummy error"
       /\ errors_Is e ErrPanic = false.
Proof.
  assert (N1 : 100%positive <> 1%positive) by discriminate.
  assert (N2 : 100%positive <> 2%positive) by discriminate.
  assert (N3 : 100%positive <> 3%positive) by discriminate.
  assert (L : Z.max 0 (200 * Millisecond) < 300 * Millisecond)
    by reflexivity.
  split; [exact N1 | split; [exact N2 | split; [exact N3 |]]].
  split; [exact L |].
  destruct (getErrorTask_fails_with_its_error a_runtime 0 100 "dummy error"
              (200 * Millisecond) (300 * Millisecond) case_ch N1 N2 N3 L)
    as (e & w' & E & _ & M & P & _).
  exists e, w'. auto.
Defined.

(** X4.  Whatever error type the task function uses, if its kind has no
    nil value (a struct, a string, a number, an array, ...), the check
    [reflect.ValueOf(err).IsNil()] panics in the runner: [Wait] returns a
    nil result and an error classified as [ErrPanic] whose message names
    the kind (as [ValueError] prints it), the handle is [Failed], and the
    value and the error of the task function are gone. *)
Theorem error_without_nil_value_becomes_a_panic :
  forall (rt : Runtime) (at_ d : Z) (v : any)
         (react : option (Z * exec (any * error)))
         (ty : string) (k : reflect.Kind) (p : option positive)
         (msg : string) (inner : error),
    nilable k = false ->
    exists w',
      Wait (Start rt at_
              (mkAsyncFunc d (Normal (v, dyn_error ty k p msg inner)) react))
      = Ret (nil_any,
             panic_error rt
               (ErrVal (ValueError (new_ValueError rt) "reflect.Value.IsNil"
                          k))) w'
      /\ state (handle w') = StateFailed
      /\ errors_Is (err (handle w')) ErrPanic = true
      /\ Error (err (handle w'))
         = "Panic cought: reflect: call of reflect.Value.IsNil on "
           ++ match k with
              | reflect.Invalid => "zero"
              | _ => reflect.Kind_String k
              end
           ++ " Value, StackTrace: " ++ debug_Stack rt ++ ", panic".
Proof.
  intros rt at_ d v react ty k p msg inner Hk.
  destruct (Wait_Start_effect rt at_
              (mkAsyncFunc d (Normal (v, dyn_error ty k p msg inner)) react))
    as (w' & E & _ & H & _).
  cbn [yields] in H.
  rewrite runner_IsNil_panics, finish_running in H by (assumption || reflexivity).
  exists w'. rewrite E, H. cbn [result err state].
  split; [reflexivity | split; [reflexivity | split; [reflexivity |]]].
  destruct k; try discriminate Hk; reflexivity.
Qed.

Lemma error_without_nil_value_becomes_a_panic_witness :
  nilable reflect.String = false
  /\ exists w',
       Wait (Start a_runtime 0
               (mkAsyncFunc 5 (Normal (IntVal 1,
                  dyn_error "main.textError" reflect.String None "bad"
                    nil_error)) None))
       = Ret (nil_any,
              panic_error a_runtime
                (ErrVal (ValueError (new_ValueError a_runtime)
                           "reflect.Value.IsNil" reflect.String))) w'
       /\ state (handle w') = StateFailed.
Proof.
  split; [reflexivity |].
  destruct (error_without_nil_value_becomes_a_panic a_runtime 0 5 (IntVal 1)
              None "main.textError" reflect.String None "bad" nil_error
              eq_refl)
    as (w' & E & St & _).
  exists w'. auto.
Defined.

(** X5.  The nil check of the runner is not limited to pointers: an error
    whose dynamic value is a nil map, slice, func, chan or pointer is taken
    as no error; [Wait] returns the value with a nil error and the handle is
    [Completed]. *)
Theorem nil_of_any_nilable_kind_completes :
  forall (rt : Runtime) (at_ d : Z) (v : any)
         (react : option (Z * exec (any * error)))
         (ty : string) (k : reflect.Kind) (msg : string) (inner : error),
    nilable k = true ->
    exists w',
      Wait (Start rt at_
              (mkAsyncFunc d (Normal (v, dyn_error ty k None msg inner))
                 react))
      = Ret (v, nil_error) w'
      /\ state (handle w') = StateCompleted.
Proof.
  intros rt at_ d v react ty k msg inner Hk.
  destruct (Wait_Start_effect rt at_
              (mkAsyncFunc d (Normal (v, dyn_error ty k None msg inner))
                 react))
    as (w' & E & _ & H & _).
  cbn [yields] in H.
  rewrite runner_nil_inside, finish_running in H by (assumption || reflexivity).
  exists w'. rewrite E, H. auto.
Qed.

Lemma nil_of_any_nilable_kind_completes_witness :
  nilable reflect.Slice = true
  /\ exists w',
       Wait (Start a_runtime 0
               (mkAsyncFunc 5 (Normal (IntVal 1,
                  dyn_error "main.multiError" reflect.Slice None "" nil_error))
                  None))
       = Ret (IntVal 1, nil_error) w'
       /\ state (handle w') = StateCompleted.
Proof.
  split; [reflexivity |].
  apply (nil_of_any_nilable_kind_completes a_runtime 0 5 (IntVal 1) None
           "main.multiError" reflect.Slice "" nil_error).
  reflexivity.
Defined.

(** X6.  Whatever the task function does, unless it panics and [recover()]
    yields nil, the handle is terminal when the runner is through: a value
    with any error, or a panic with a value, on a handle in any state. *)
Theorem runner_leaves_the_handle_terminal :
  forall (rt : Runtime) (t : TaskStatus) (c : exec (any * error)),
    c <> Panic nil_any ->
    IsTerminalState (state (runAndTrackTask rt t c)) = true.
Proof. exact runner_outcome_is_terminal. Qed.

Lemma runner_leaves_the_handle_terminal_witness :
  Normal (IntVal 9, structError) <> Panic nil_any
  /\ IsTerminalState
       (state (runAndTrackTask a_runtime a_running_handle
                 (Normal (IntVal 9, structError)))) = true.
Proof.
  assert (Hc : Normal (IntVal 9, structError) <> Panic nil_any)
    by discriminate.
  split; [exact Hc |].
  exact (runner_leaves_the_handle_terminal a_runtime a_running_handle
           (Normal (IntVal 9, structError)) Hc).
Defined.

(** X7.  The guard [r != nil] of the deferred closure: when the task
    function panics and [recover()] yields nil (as [panic(nil)] does before
    Go 1.21), nothing is committed.  The wait group is released all the
    same, so [Wait] returns, with a nil result and a nil error, while the
    handle still is [Running]; a further [Wait] finds the wait group at zero
    and returns the same at once. *)
Theorem nil_panic_leaves_the_handle_Running :
  forall (rt : Runtime) (at_ d : Z) (react : option (Z * exec (any * error))),
  exists w',
    Wait (Start rt at_ (mkAsyncFunc d (Panic nil_any) react))
    = Ret (nil_any, nil_error) w'
    /\ state (handle w') = StateRunning
    /\ now w' = at_ + Z.max 0 d
    /\ wg w' = 0%nat
    /\ exists w'',
         Wait w' = Ret (nil_any, nil_error) w''
         /\ state (handle w'') = StateRunning
         /\ now w'' = now w'.
Proof.
  intros rt at_ d react.
  destruct (Wait_Start_effect rt at_ (mkAsyncFunc d (Panic nil_any) react))
    as (w' & E & S' & H & N & R & G & _).
  cbn [yields duration] in H, N. rewrite runner_panic_nil in H.
  exists w'. rewrite E, H. cbn [result err state].
  split; [reflexivity | split; [reflexivity | split; [exact N |]]].
  split; [exact G |].
  assert (T : IsTerminalState (state (handle w')) = false) by now rewrite H.
  destruct (Wait_running w' S' T) as (w'' & E' & _ & _ & H').
  rewrite R in H'. destruct H' as (H' & N').
  exists w''. rewrite E', H', H. auto.
Qed.





(** X10.  A [WaitWithTimeout] with a timeout of zero or less, while the
    task function is still running, is not a harmless poll: it returns at
    once with the timeout error and leaves the handle [Canceled], while the
    task function runs on. *)
Theorem zero_timeout_cancels_the_handle :
  forall (pick : select_case) (timeout : Z) (w : World) (g : Goroutine),
    started w ->
    IsTerminalState (state (handle w)) = false ->
    runner w = Some g ->
    now w < finish_at g ->
    timeout <= 0 ->
    exists w',
      WaitWithTimeout pick timeout w = Ret (nil_any, ErrTimeout) w'
      /\ now w' = now w
      /\ state (handle w') = StateCanceled
      /\ err (handle w') = ErrTimeout
      /\ runner w' = Some g.
Proof.
  intros pick timeout w g Hs T R L Z.
  assert (L' : now w + Z.max 0 timeout < finish_at g) by lia.
  rewrite (WaitWithTimeout_timer pick timeout w g Hs T R L').
  eexists. split; [reflexivity |].
  cbn [set_parked set_handle set_now now handle state err runner].
  split; [lia | auto].
Qed.

Lemma zero_timeout_cancels_the_handle_witness :
  started (Start a_runtime 0 nine_after_2s)
  /\ IsTerminalState (state (handle (Start a_runtime 0 nine_after_2s))) = false
  /\ now (Start a_runtime 0 nine_after_2s) < 2 * Second
  /\ 0 <= 0
  /\ exists w',
       WaitWithTimeout case_ch 0 (Start a_runtime 0 nine_after_2s)
       = Ret (nil_any, ErrTimeout) w'
       /\ now w' = 0
       /\ state (handle w') = StateCanceled.
Proof.
  split; [apply started_Start |].
  split; [reflexivity |].
  split; [reflexivity |].
  split; [lia |].
  destruct (zero_timeout_cancels_the_handle case_ch 0
              (Start a_runtime 0 nine_after_2s)
              (mkGoroutine (2 * Second) (Normal (IntVal 9, nil_error)) None
                 a_runtime)
              (started_Start a_runtime 0 nine_after_2s) eq_refl eq_refl
              eq_refl (Z.le_refl 0))
    as (w' & E & N & St & _).
  exists w'. auto.
Defined.

(** ** When nobody is blocked *)

Lemma exec_method_idle (m : method) (w : World) :
  IsTerminalState (state (handle w)) = true ->
  runner w = None ->
  exists r w',
    exec_method m w = Ret r w'
    /\ handle w' = handle w
    /\ runner w' = None
    /\ ctx_done w' = ctx_done w
    /\ cancel_calls w' = cancel_calls w.
Proof.
  intros T R.
  destruct m as [| | | pick timeout | d];
    cbn [exec_method]; unfold mbind, ret.
  - eexists _, w. auto.
  - rewrite Cancel_terminal by assumption. eexists _, w. auto.
  - rewrite Wait_terminal by assumption. eexists _, w. auto.
  - rewrite WaitWithTimeout_terminal by assumption. eexists _, w. auto.
  - unfold Sleep, advance_to. cbn [set_now runner]. rewrite R.
    destruct (d <=? 0); [eexists _, w; auto |].
    eexists _, _. split; [reflexivity |]. auto.
Qed.

Lemma run_idle (ms : list method) (w : World) :
  IsTerminalState (state (handle w)) = true ->
  runner w = None ->
  exists obs w',
    run ms w = Ret obs w'
    /\ handle w' = handle w
    /\ runner w' = None
    /\ ctx_done w' = ctx_done w
    /\ cancel_calls w' = cancel_calls w.
Proof.
  revert w; induction ms as [| m ms IH]; intros w T R.
  - exists [], w. cbn. auto.
  - destruct (exec_method_idle m w T R) as (r & w1 & E & H1 & R1 & D1 & C1).
    assert (T1 : IsTerminalState (state (handle w1)) = true)
      by now rewrite H1.
    destruct (IH w1 T1 R1) as (obs & w' & E' & H' & R' & D' & C').
    cbn [run]. unfold mbind, observe, ret. rewrite E, E'.
    eexists _, w'. split; [reflexivity |].
    repeat split; congruence.
Qed.

(** X11.  After a [WaitWithTimeout] with a positive timeout that timed
    out, the goroutine it started stays blocked in [Wait] for as long as the
    task function runs.  Once the task function has returned (the caller
    sleeps until some time after it), that goroutine is gone, the wait group
    is at zero and the context has been canceled by its deferred call; the
    outcome of the task function does not reach the handle. *)
Theorem parked_goroutine_ends_with_the_task :
  forall (pick : select_case) (timeout d : Z) (w : World) (g : Goroutine),
    started w ->
    IsTerminalState (state (handle w)) = false ->
    runner w = Some g ->
    0 < timeout ->
    now w + timeout < finish_at g ->
    finish_at g < now w + timeout + d ->
    exists w1 w2,
      WaitWithTimeout pick timeout w = Ret (nil_any, ErrTimeout) w1
      /\ parked w1 = S (parked w)
      /\ runner w1 = Some g
      /\ Sleep d w1 = Ret tt w2
      /\ handle w2 = handle w1
      /\ parked w2 = 0%nat
      /\ runner w2 = None
      /\ wg w2 = 0%nat
      /\ ctx_done w2 = true
      /\ cancel_calls w2 = S (parked w + cancel_calls w).
Proof.
  intros pick timeout d w g Hs T R Ht L F.
  assert (L' : now w + Z.max 0 timeout < finish_at g) by lia.
  pose proof (WaitWithTimeout_timer pick timeout w g Hs T R L') as E1.
  replace (goroutine_first pick timeout) with true in E1
    by (unfold goroutine_first;
        replace (0 <? timeout) with true
          by (symmetry; apply Z.ltb_lt; assumption);
        reflexivity).
  set (w1 := set_parked _ _) in E1.
  assert (S1 : started w1).
  { destruct Hs as (C & G & N).
    unfold started, w1;
      cbn [set_parked set_handle set_now handle wg runner cancelFunc
           waitGroup].
    auto. }
  set (w0 := set_now (Z.max (now w1) (now w1 + d)) w1).
  assert (S0 : started w0) by exact S1.
  assert (R0 : runner w0 = Some g) by exact R.
  destruct (deliver_effect g w0 S0 R0)
    as (w2 & E & _ & H2 & _ & R2 & G2 & P2 & C2 & D2).
  assert (E2 : Sleep d w1 = Ret tt w2).
  { unfold Sleep.
    replace (d <=? 0) with false by (symmetry; apply Z.leb_gt; lia).
    unfold advance_to. fold w0. rewrite R0.
    replace (finish_at g <=? now w0) with true
      by (symmetry; apply Z.leb_le;
          cbn [w0 w1 set_now set_parked set_handle now]; lia).
    exact E. }
  exists w1, w2.
  split; [exact E1 | split; [reflexivity | split; [exact R |]]].
  split; [exact E2 |].
  split; [rewrite H2; now apply runner_frozen |].
  split; [exact P2 | split; [exact R2 | split; [exact G2 |]]].
  split; [exact D2 | exact C2].
Qed.

Lemma parked_goroutine_ends_with_the_task_witness :
  started (Start a_runtime 0 nine_after_2s)
  /\ IsTerminalState (state (handle (Start a_runtime 0 nine_after_2s))) = false
  /\ 0 < 300 * Millisecond
  /\ now (Start a_runtime 0 nine_after_2s) + 300 * Millisecond < 2 * Second
  /\ 2 * Second
     < now (Start a_runtime 0 nine_after_2s) + 300 * Millisecond + 3 * Second
  /\ exists w1 w2,
       WaitWithTimeout case_ch (300 * Millisecond)
         (Start a_runtime 0 nine_after_2s) = Ret (nil_any, ErrTimeout) w1
       /\ parked w1 = 1%nat
       /\ Sleep (3 * Second) w1 = Ret tt w2
       /\ parked w2 = 0%nat
       /\ state (handle w2) = StateCanceled
       /\ ctx_done w2 = true.
Proof.
  split; [apply started_Start |].
  split; [reflexivity |].
  split; [reflexivity |].
  split; [reflexivity |].
  split; [reflexivity |].
  destruct (parked_goroutine_ends_with_the_task case_ch (300 * Millisecond)
              (3 * Second) (Start a_runtime 0 nine_after_2s)
              (mkGoroutine (2 * Second) (Normal (IntVal 9, nil_error)) None
                 a_runtime)
              (started_Start a_runtime 0 nine_after_2s) eq_refl eq_refl
              eq_refl eq_refl eq_refl)
    as (w1 & w2 & E1 & P1 & _ & E2 & H2 & P2 & _ & _ & D2 & _).
  exists w1, w2.
  split; [exact E1 | split; [exact P1 | split; [exact E2 |]]].
  split; [exact P2 | split; [| exact D2]].
  rewrite H2. vm_compute in E1. inversion E1. reflexivity.
Defined.

(** [time.Sleep] on a fresh handle for longer than the task function
    takes: the runner has committed, nobody was waiting. *)
Lemma Sleep_Start (rt : Runtime) (at_ d : Z) (task : AsyncFunc) :
  Z.max 0 (duration task) < d ->
  exists w1,
    Sleep d (Start rt at_ task) = Ret tt w1
    /\ started w1
    /\ handle w1 = runAndTrackTask rt a_running_handle (yields task)
    /\ runner w1 = None
    /\ parked w1 = 0%nat
    /\ ctx_done w1 = false
    /\ cancel_calls w1 = 0%nat.
Proof.
  intros L.
  set (g := mkGoroutine (at_ + Z.max 0 (duration task)) (yields task)
              (on_cancel task) rt).
  set (w0 := set_now (Z.max at_ (at_ + d)) (Start rt at_ task)).
  assert (S0 : started w0) by apply (started_Start rt at_ task).
  assert (R0 : runner w0 = Some g) by reflexivity.
  destruct (deliver_effect g w0 S0 R0)
    as (w1 & E & S1 & H1 & _ & R1 & _ & P1 & C1 & D1).
  exists w1. split.
  - unfold Sleep.
    replace (d <=? 0) with false by (symmetry; apply Z.leb_gt; lia).
    unfold advance_to. change (now (Start rt at_ task)) with at_.
    fold w0. rewrite R0.
    replace (finish_at g <=? now w0) with true
      by (symmetry; apply Z.leb_le; cbn [g w0 set_now now finish_at]; lia).
    exact E.
  - auto 10.
Qed.

(** X12.  When the task function has returned or panicked (with a value)
    some time before anybody waits or cancels, the handle is terminal and
    no later call ever invokes the cancel function: [Cancel], [Wait] and
    [WaitWithTimeout] all return at their first guard, so the derived
    context stays uncanceled whatever is called afterwards. *)
Theorem finished_task_is_never_canceled :
  forall (rt : Runtime) (at_ d : Z) (task : AsyncFunc) (ms : list method),
    yields task <> Panic nil_any ->
    Z.max 0 (duration task) < d ->
    exists w1 obs w2,
      Sleep d (Start rt at_ task) = Ret tt w1
      /\ handle w1 = runAndTrackTask rt a_running_handle (yields task)
      /\ IsTerminalState (state (handle w1)) = true
      /\ run ms w1 = Ret obs w2
      /\ handle w2 = handle w1
      /\ ctx_done w2 = false
      /\ cancel_calls w2 = 0%nat.
Proof.
  intros rt at_ d task ms Hy L.
  destruct (Sleep_Start rt at_ d task L)
    as (w1 & E1 & _ & H1 & R1 & _ & D1 & C1).
  assert (T1 : IsTerminalState (state (handle w1)) = true).
  { rewrite H1. now apply runner_outcome_is_terminal. }
  destruct (run_idle ms w1 T1 R1) as (obs & w2 & E2 & H2 & _ & D2 & C2).
  exists w1, obs, w2.
  split; [exact E1 | split; [exact H1 | split; [exact T1 |]]].
  split; [exact E2 | split; [exact H2 |]].
  split; congruence.
Qed.

Lemma finished_task_is_never_canceled_witness :
  yields (nine_after_200ms None) <> Panic nil_any
  /\ Z.max 0 (duration (nine_after_200ms None)) < 1 * Second
  /\ exists w1 obs w2,
       Sleep (1 * Second) (Start a_runtime 0 (nine_after_200ms None))
       = Ret tt w1
       /\ run [mWait; mCancel; mWaitWithTimeout case_timer 0] w1 = Ret obs w2
       /\ state (handle w2) = StateCompleted
       /\ ctx_done w2 = false.
Proof.
  assert (Hy : yields (nine_after_200ms None) <> Panic nil_any)
    by discriminate.
  assert (L : Z.max 0 (duration (nine_after_200ms None)) < 1 * Second)
    by reflexivity.
  split; [exact Hy | split; [exact L |]].
  destruct (finished_task_is_never_canceled a_runtime 0 (1 * Second)
              (nine_after_200ms None)
              [mWait; mCancel; mWaitWithTimeout case_timer 0] Hy L)
    as (w1 & obs & w2 & E1 & H1 & _ & E2 & H2 & D2 & _).
  exists w1, obs, w2.
  split; [exact E1 | split; [exact E2 | split; [| exact D2]]].
  rewrite H2, H1. reflexivity.
Defined.

(** X13.  Reads are repeatable.  Unless the task function panics with a
    nil [recover()] value, the first [Wait] on the handle of [Start] takes
    as long as the task function and every later [Wait] or
    [WaitWithTimeout], after any other calls and pauses, returns the very
    same result and error in no time. *)
Theorem every_wait_sees_the_same_outcome :
  forall (rt : Runtime) (at_ : Z) (task : AsyncFunc) (ms : list method),
    yields task <> Panic nil_any ->
    exists (v : any) (e : error) (obs : list observation) (w' : World),
      run (mWait :: ms) (Start rt at_ task)
      = Ret (mkObservation mWait (Outcome v e) (Z.max 0 (duration task))
               :: obs) w'
      /\ result (handle w') = v
      /\ err (handle w') = e
      /\ Forall
           (fun o =>
              match made o with
              | mWait | mWaitWithTimeout _ _ =>
                  replied o = Outcome v e /\ took o = 0
              | _ => True
              end) obs.
Proof.
  intros rt at_ task ms Hy.
  destruct (Wait_Start_effect rt at_ task)
    as (w1 & E1 & S1 & H1 & N1 & _).
  assert (T1 : IsTerminalState (state (handle w1)) = true).
  { rewrite H1. now apply runner_outcome_is_terminal. }
  destruct (run_terminal ms w1 (or_introl S1) T1)
    as (obs & w' & E' & _ & H' & I').
  exists (result (handle w1)), (err (handle w1)), obs, w'.
  split; [| split; [now rewrite H' | split; [now rewrite H' |]]].
  - cbn [run]. unfold mbind, observe, ret.
    cbn [exec_method]. unfold mbind, ret. rewrite E1.
    cbn [fst snd]. rewrite E'.
    replace (now w1 - now (Start rt at_ task)) with (Z.max 0 (duration task))
      by (rewrite N1; cbn [Start now]; lia).
    reflexivity.
  - revert I'. apply Forall_impl. intros o. unfold immediate.
    destruct (made o); auto.
Qed.

Lemma every_wait_sees_the_same_outcome_witness :
  yields nine_after_2s <> Panic nil_any
  /\ exists (v : any) (e : error) (obs : list observation) (w' : World),
       run [mWait; mSleep 5; mWaitWithTimeout case_timer 0; mWait]
         (Start a_runtime 0 nine_after_2s)
       = Ret (mkObservation mWait (Outcome v e)
                (Z.max 0 (duration nine_after_2s)) :: obs) w'
       /\ result (handle w') = v.
Proof.
  assert (Hy : yields nine_after_2s <> Panic nil_any) by discriminate.
  split; [exact Hy |].
  destruct (every_wait_sees_the_same_outcome a_runtime 0 nine_after_2s
              [mSleep 5; mWaitWithTimeout case_timer 0; mWait] Hy)
    as (v & e & obs & w' & E & V & _).
  exists v, e, obs, w'. auto.
Defined.

(** X14.  [Cancel] discards whatever the task function will yield: after
    [Cancel] on a running handle of [Start], every [Wait] and every
    [WaitWithTimeout], in any sequence of calls and pauses, returns a nil
    result and [ErrCanceled] in no time, also once the task function has
    returned. *)
Theorem Cancel_discards_the_outcome :
  forall (w : World) (ms : list method),
    started w ->
    IsTerminalState (state (handle w)) = false ->
    exists w' obs w'',
      Cancel w = Ret tt w'
      /\ run ms w' = Ret obs w''
      /\ state (handle w'') = StateCanceled
      /\ result (handle w'') = nil_any
      /\ err (handle w'') = ErrCanceled
      /\ Forall
           (fun o =>
              match made o with
              | mWait | mWaitWithTimeout _ _ =>
                  replied o = Outcome nil_any ErrCanceled /\ took o = 0
              | _ => True
              end) obs.
Proof.
  intros w ms Hs T.
  pose proof (Cancel_running w (proj1 Hs) T) as E.
  set (w' := set_handle _ _) in E.
  assert (S' : started w').
  { pose proof (cancel_started w Hs) as (C & G & N).
    destruct Hs as (C0 & G0 & _).
    unfold started, w';
      cbn [set_handle handle cancelFunc waitGroup wg runner].
    now rewrite C0, G0. }
  destruct (run_terminal ms w' (or_introl S') eq_refl)
    as (obs & w'' & E' & _ & H' & I').
  exists w', obs, w''.
  split; [exact E | split; [exact E' |]].
  rewrite H'. cbn [w' set_handle handle state result err].
  repeat (split; [reflexivity |]).
  revert I'. apply Forall_impl. intros o. unfold immediate.
  destruct (made o); auto.
Qed.

Lemma Cancel_discards_the_outcome_witness :
  started (Start a_runtime 0 nine_after_2s)
  /\ IsTerminalState (state (handle (Start a_runtime 0 nine_after_2s))) = false
  /\ exists w' obs w'',
       Cancel (Start a_runtime 0 nine_after_2s) = Ret tt w'
       /\ run [mSleep (3 * Second); mWait] w' = Ret obs w''
       /\ state (handle w'') = StateCanceled
       /\ err (handle w'') = ErrCanceled.
Proof.
  split; [apply started_Start |].
  split; [reflexivity |].
  destruct (Cancel_discards_the_outcome (Start a_runtime 0 nine_after_2s)
              [mSleep (3 * Second); mWait]
              (started_Start a_runtime 0 nine_after_2s) eq_refl)
    as (w' & obs & w'' & E & E' & St & _ & Er & _).
  exists w', obs, w''. auto.
Defined.
